(** * auto-form: the schema walker and the searchable multi-select widget

    A shallow embedding of two components of the repository:

    - [MultipleSelector]: the state, the event handlers and the candidate
      list of the multi-select widget (the component [MultipleSelector],
      which follows [AutoFormEnumMultiInput] in [enum-multi-input.tsx]);
    - [Walker]: one pass of the component [AutoFormObject] over the keys
      of an object shape.  The nested [<AutoFormObject>] of a sub-object
      is an element of the result, given by its properties.

    Around them, [Debounce] is the hook [useDebounce], [SelectorView]
    the clear-all button and the effect on the [options] property,
    [EnumMultiInput] the form field [AutoFormEnumMultiInput] that feeds
    the widget, and [WalkerView] the keys of the elements and the nested
    [<AutoFormObject>].

    React state is a record that every handler takes and returns; calls
    to the host's callbacks and to the DOM are collected in a list, in
    the order the handler makes them.  The definitions come first
    ([JsString], [MultipleSelector], [Walker], [Spec], the concrete
    inputs and the modules named above), the properties after them. *)

From Stdlib Require Import List String Ascii Bool ZArith Arith Lia.
Import ListNotations.

Set Warnings "-register-all".

Local Open Scope string_scope.
Local Open Scope list_scope.

(** ** JavaScript strings *)

Module JsString.

(** [String.prototype.toLowerCase] on the ASCII range: the letters
    [A]..[Z] are moved to [a]..[z], every other character is kept. *)
Definition lower_ascii (c : ascii) : ascii :=
  let n := nat_of_ascii c in
  if (65 <=? n)%nat && (n <=? 90)%nat then ascii_of_nat (n + 32) else c.

Fixpoint toLowerCase (s : string) : string :=
  match s with
  | EmptyString => EmptyString
  | String c s' => String (lower_ascii c) (toLowerCase s')
  end.

(** [s.startsWith(sub)] *)
Fixpoint startsWith (s sub : string) {struct sub} : bool :=
  match sub, s with
  | EmptyString, _ => true
  | String _ _, EmptyString => false
  | String a sub', String b s' => Ascii.eqb a b && startsWith s' sub'
  end.

(** [s.includes(sub)]: [sub] starts at some position of [s]. *)
Fixpoint includes (s sub : string) : bool :=
  startsWith s sub ||
  match s with
  | EmptyString => false
  | String _ s' => includes s' sub
  end.

End JsString.

(** ** The multi-select widget *)

Module MultipleSelector.

Import JsString.

(** [interface Option]: [disable] and [fixed] are optional properties,
    [None] is a property that is absent. *)
Record Option : Type := mkOption {
  value : string;
  label : string;
  disable : option bool;
  fixed : option bool
}.

(** Truthiness of an optional boolean property, as in [s.fixed] used as
    a condition. *)
Definition truthy (b : option bool) : bool :=
  match b with
  | Some true => true
  | _ => false
  end.

(** What a promise returned by [onSearch] settles to. *)
Inductive Settled (A : Type) : Type :=
| Fulfilled (res : A)
| Rejected (reason : string).
Arguments Fulfilled {A} res.
Arguments Rejected {A} reason.

(** The properties of [MultipleSelectorProps] the handlers read;
    [props_value] is the property [value], the selection the host hands
    in.  [onChange] and [onMaxSelected] say whether the host supplied the
    callback: the widget calls both through [?.]. *)
Record Props : Type := mkProps {
  props_value : option (list Option);
  defaultOptions : list Option;
  maxSelected : Z;
  creatable : bool;
  triggerSearchOnFocus : bool;
  onSearch : option (string -> Settled (list Option));
  onChange : bool;
  onMaxSelected : bool
}.

(** [Number.MAX_SAFE_INTEGER], the default of [maxSelected]. *)
Definition MAX_SAFE_INTEGER : Z := 9007199254740991.

(** The [useState] cells of the component, and the value of the
    [useDebounce] hook. *)
Record State : Type := mkState {
  selected : list Option;
  options : list Option;
  inputValue : string;
  debouncedSearchTerm : string;
  isLoading : bool;
  open : bool
}.

(** The state of the first render: [useState(value || [])],
    [useState(arrayDefaultOptions)], an empty query, closed. *)
Definition initialState (p : Props) : State :=
  mkState (match props_value p with Some v => v | None => [] end)
          (defaultOptions p) "" "" false false.

Definition setSelected (v : list Option) (st : State) : State :=
  mkState v (options st) (inputValue st) (debouncedSearchTerm st)
          (isLoading st) (open st).

Definition setOptions (v : list Option) (st : State) : State :=
  mkState (selected st) v (inputValue st) (debouncedSearchTerm st)
          (isLoading st) (open st).

Definition setInputValue (v : string) (st : State) : State :=
  mkState (selected st) (options st) v (debouncedSearchTerm st)
          (isLoading st) (open st).

Definition setIsLoading (v : bool) (st : State) : State :=
  mkState (selected st) (options st) (inputValue st) (debouncedSearchTerm st)
          v (open st).

(** The effect on [value]: a selection handed in replaces the state's. *)
Definition syncValue (p : Props) (st : State) : State :=
  match props_value p with
  | Some v => setSelected v st
  | None => st
  end.

(** A call the widget makes to the outside: [onChange?.(newOptions)],
    [onMaxSelected?.(maxLimit)], [input.blur()]. *)
Inductive Call : Type :=
| CallOnChange (newOptions : list Option)
| CallOnMaxSelected (maxLimit : nat)
| CallBlur.

(** [cb?.(x)] reaches the host only when the callback was supplied. *)
Definition reachesHost (p : Props) (c : Call) : bool :=
  match c with
  | CallOnChange _ => onChange p
  | CallOnMaxSelected _ => onMaxSelected p
  | CallBlur => true
  end.

Definition Handler : Type := State -> State * list Call.

(** *** Removing entries *)

Definition handleUnselect (option : Option) : Handler := fun st =>
  let newOptions :=
    filter (fun s => negb (value s =? value option)) (selected st) in
  (setSelected newOptions st, [CallOnChange newOptions]).

(** [handleKeyDown]; [input] is [inputRef.current], given by the text it
    holds, and [key] is [e.key]. *)
Definition handleKeyDown (input : option string) (key : string) : Handler :=
  fun st =>
  match input with
  | None => (st, [])
  | Some input_value =>
    let '(st1, calls1) :=
      if (key =? "Delete") || (key =? "Backspace") then
        if (input_value =? "") && (0 <? List.length (selected st))%nat then
          match nth_error (selected st) (List.length (selected st) - 1) with
          | Some lastSelectOption =>
            if negb (truthy (fixed lastSelectOption))
            then handleUnselect lastSelectOption st
            else (st, [])
          | None => (st, [])
          end
        else (st, [])
      else (st, []) in
    if key =? "Escape" then (st1, calls1 ++ [CallBlur]) else (st1, calls1)
  end.

(** The [onClick] of the clear-all button. *)
Definition clearAll : Handler := fun st =>
  (setSelected (filter (fun s => truthy (fixed s)) (selected st)) st,
   [CallOnChange (filter (fun s => truthy (fixed s)) (selected st))]).

(** *** Adding entries *)

(** The [onSelect] handed to [CommandGroupContent]. *)
Definition onSelect (p : Props) (option : Option) : Handler := fun st =>
  if (maxSelected p <=? Z.of_nat (List.length (selected st)))%Z then
    (st, [CallOnMaxSelected (List.length (selected st))])
  else
    let newOptions := selected st ++ [option] in
    (setSelected newOptions (setInputValue "" st), [CallOnChange newOptions]).

(** The [onSelect] of the item built by [CreatableItem]. *)
Definition creatableOnSelect (p : Props) (value : string) : Handler := fun st =>
  if (maxSelected p <=? Z.of_nat (List.length (selected st)))%Z then
    (st, [CallOnMaxSelected (List.length (selected st))])
  else
    let newOptions := selected st ++ [mkOption value value None None] in
    (setSelected newOptions (setInputValue "" st), [CallOnChange newOptions]).

(** *** The candidate list *)

Definition removePickedOption (options picked : list Option)
    (debouncedSearchTerm : string) : list Option :=
  map (fun val => mkOption (value val) (label val) None None)
    (filter
       (fun option =>
          includes (toLowerCase (value option)) (toLowerCase debouncedSearchTerm))
       (filter
          (fun val =>
             match find (fun p => value p =? value val) picked with
             | Some _ => false
             | None => true
             end)
          options)).

Definition isOptionsExist (options targetOption : list Option) : bool :=
  existsb
    (fun option =>
       existsb
         (fun target => toLowerCase (value target) =? toLowerCase (value option))
         targetOption)
    options.

Definition selectables (p : Props) (st : State) : list Option :=
  removePickedOption (options st) (selected st)
    (match onSearch p with
     | Some _ => ""
     | None => debouncedSearchTerm st
     end).

(** [CreatableItem]: the value of the create item when it is shown. *)
Definition CreatableItem (p : Props) (st : State) : option string :=
  if negb (creatable p) then None
  else if isOptionsExist (options st)
            [mkOption (inputValue st) (inputValue st) None None]
          || match find (fun s => toLowerCase (value s) =? toLowerCase (inputValue st))
                        (selected st) with
             | Some _ => true
             | None => false
             end
  then None
  else
    match onSearch p with
    | None =>
      if (0 <? String.length (inputValue st))%nat then Some (inputValue st) else None
    | Some _ =>
      if (0 <? String.length (debouncedSearchTerm st))%nat && negb (isLoading st)
      then Some (inputValue st)
      else None
    end.

(** An item of the rendered list, as [CommandGroupContent] builds it:
    its [value] and [disabled] attributes and the option its [onSelect]
    passes on. *)
Record CommandItem : Type := mkCommandItem {
  item_value : string;
  item_disabled : option bool;
  item_option : Option
}.

(** The items [CommandGroupContent] renders for the rows the virtualizer
    asks for; a row outside [selectables] makes [option.value] throw,
    which is [None]. *)
Fixpoint CommandGroupContent (selectables : list Option)
    (virtualOptions : list nat) : option (list CommandItem) :=
  match virtualOptions with
  | [] => Some []
  | index :: rest =>
    match nth_error selectables index, CommandGroupContent selectables rest with
    | Some option, Some items =>
      Some (mkCommandItem (value option) (disable option) option :: items)
    | _, _ => None
    end
  end.

(** *** Asynchronous search *)

(** An [async] function body: it runs on the state and either completes
    or throws; what it had written to the state before throwing stays. *)
Inductive Completion : Type :=
| Normal
| Throw (reason : string).

Definition Async : Type := State -> State * Completion.

Definition andThen (a b : Async) : Async := fun st =>
  match a st with
  | (st', Normal) => b st'
  | (st', Throw r) => (st', Throw r)
  end.

Definition skip : Async := fun st => (st, Normal).

Definition doSearch (p : Props) : Async := fun st =>
  let st1 := setIsLoading true st in
  match onSearch p with
  | None => (setIsLoading false (setOptions [] st1), Normal)
  | Some search =>
    match search (debouncedSearchTerm st) with
    | Fulfilled res => (setIsLoading false (setOptions res st1), Normal)
    | Rejected r => (st1, Throw r)
    end
  end.

Definition exec (p : Props) : Async := fun st =>
  match onSearch p with
  | None => (st, Normal)
  | Some _ =>
    if negb (open st) then (st, Normal)
    else
      andThen (if triggerSearchOnFocus p then doSearch p else skip)
              (if (0 <? String.length (debouncedSearchTerm st))%nat
               then doSearch p else skip)
              st
  end.

End MultipleSelector.

(** ** The schema walker *)

Module Walker.

(** *** Schema nodes *)

(** Type tags of nodes the walker has no case for. *)
Inductive ZodOtherKind : Type :=
| ZodDate
| ZodBigInt
| ZodNativeEnum
| ZodLiteral
| ZodUnion
| ZodAny.

(** A zod schema node, by the tag [_def.typeName]; every node carries
    [_def.description].  [ZodOptional], [ZodNullable] and [ZodDefault]
    are the nodes whose [_def] has an [innerType]; [ZodEffects] keeps
    its operand in [_def.schema]. *)
Inductive ZodTypeAny : Type :=
| ZodString (description : option string)
| ZodNumber (description : option string) (coerce : bool)
| ZodBoolean (description : option string)
| ZodEnum (description : option string) (values : list string)
| ZodArray (description : option string) (type : ZodTypeAny)
| ZodObject (description : option string) (shape : list (string * ZodTypeAny))
| ZodOptional (description : option string) (innerType : ZodTypeAny)
| ZodNullable (description : option string) (innerType : ZodTypeAny)
| ZodDefault (description : option string) (innerType : ZodTypeAny)
| ZodEffects (description : option string) (schema : ZodTypeAny)
| ZodOther (description : option string) (kind : ZodOtherKind).

Definition Shape : Type := list (string * ZodTypeAny).

Definition description (z : ZodTypeAny) : option string :=
  match z with
  | ZodString d | ZodNumber d _ | ZodBoolean d | ZodEnum d _ | ZodArray d _
  | ZodObject d _ | ZodOptional d _ | ZodNullable d _ | ZodDefault d _
  | ZodEffects d _ | ZodOther d _ => d
  end.

Definition typeName (z : ZodTypeAny) : string :=
  match z with
  | ZodString _ => "ZodString"
  | ZodNumber _ _ => "ZodNumber"
  | ZodBoolean _ => "ZodBoolean"
  | ZodEnum _ _ => "ZodEnum"
  | ZodArray _ _ => "ZodArray"
  | ZodObject _ _ => "ZodObject"
  | ZodOptional _ _ => "ZodOptional"
  | ZodNullable _ _ => "ZodNullable"
  | ZodDefault _ _ => "ZodDefault"
  | ZodEffects _ _ => "ZodEffects"
  | ZodOther _ ZodDate => "ZodDate"
  | ZodOther _ ZodBigInt => "ZodBigInt"
  | ZodOther _ ZodNativeEnum => "ZodNativeEnum"
  | ZodOther _ ZodLiteral => "ZodLiteral"
  | ZodOther _ ZodUnion => "ZodUnion"
  | ZodOther _ ZodAny => "ZodAny"
  end.

(** [_def.innerType], for the nodes that have one. *)
Definition innerTypeOf (z : ZodTypeAny) : option ZodTypeAny :=
  match z with
  | ZodOptional _ i | ZodNullable _ i | ZodDefault _ i => Some i
  | _ => None
  end.

(** The assignment [_def.coerce = true] on a number node. *)
Definition setCoerce (z : ZodTypeAny) : ZodTypeAny :=
  match z with
  | ZodNumber d _ => ZodNumber d true
  | _ => z
  end.

(** [handleIfZodNumber] writes into the node it is given; the result is
    that node after the write. *)
Definition handleIfZodNumber (item : ZodTypeAny) : ZodTypeAny :=
  let isZodNumber := typeName item =? "ZodNumber" in
  let isInnerZodNumber :=
    match innerTypeOf item with
    | Some i => typeName i =? "ZodNumber"
    | None => false
    end in
  if isZodNumber then setCoerce item
  else if isInnerZodNumber then
    match item with
    | ZodOptional d i => ZodOptional d (setCoerce i)
    | ZodNullable d i => ZodNullable d (setCoerce i)
    | ZodDefault d i => ZodDefault d (setCoerce i)
    | _ => item
    end
  else item.

(** The [while] loop of [isZodPrimitiveArray]: follow [_def.innerType]
    as long as there is one. *)
Fixpoint unwrap (innerType : ZodTypeAny) : ZodTypeAny :=
  match innerType with
  | ZodOptional _ i | ZodNullable _ i | ZodDefault _ i => unwrap i
  | _ => innerType
  end.

Record PrimitiveArrayInfo : Type := mkPrimitiveArrayInfo {
  isPrimitiveArray : bool;
  isEnumOfPrimitives : bool;
  innerType : ZodTypeAny
}.

Definition isZodPrimitiveArray (item : ZodTypeAny) : PrimitiveArrayInfo :=
  let innerType := unwrap item in
  match innerType with
  | ZodArray _ type =>
    mkPrimitiveArrayInfo
      (match type with
       | ZodString _ | ZodNumber _ _ | ZodBoolean _ => true
       | _ => false
       end)
      (match type with
       | ZodEnum _ _ => true
       | _ => false
       end)
      type
  | _ => mkPrimitiveArrayInfo false false innerType
  end.

(** *** Field configuration *)

(** A React component, by name. *)
Definition Component : Type := string.

(** [fieldType]: the key of a widget, or a component of the host. *)
Inductive FieldType : Type :=
| FieldTypeKey (key : string)
| FieldTypeComponent (component : Component).

(** The input properties the walker reads or writes; [None] is a
    property that is absent. *)
Record InputProps : Type := mkInputProps {
  required : option bool;
  disabled : option bool;
  defaultValue : option string;
  creatable : option bool;
  className : option string
}.

Definition noInputProps : InputProps := mkInputProps None None None None None.

Definition orElse {A : Type} (a b : option A) : option A :=
  match a with
  | Some _ => a
  | None => b
  end.

(** [{...a, ...b}] *)
Definition spread (a b : InputProps) : InputProps :=
  mkInputProps
    (orElse (required b) (required a))
    (orElse (disabled b) (disabled a))
    (orElse (defaultValue b) (defaultValue a))
    (orElse (creatable b) (creatable a))
    (orElse (className b) (className a)).

(** An entry of the [fieldConfig] object.  The same object is read as a
    [FieldConfigItem] for a leaf and handed down as the [FieldConfig] of
    a nested object: [nested] are its entries in the second reading. *)
Inductive FieldConfigItem : Type :=
| mkFieldConfigItem (fieldType : option FieldType)
    (inputProps : option InputProps) (renderParent : option Component)
    (nested : list (string * FieldConfigItem)).

Definition FieldConfig : Type := list (string * FieldConfigItem).

Definition fieldType (c : FieldConfigItem) : option FieldType :=
  let '(mkFieldConfigItem t _ _ _) := c in t.
Definition inputProps (c : FieldConfigItem) : option InputProps :=
  let '(mkFieldConfigItem _ p _ _) := c in p.
Definition renderParent (c : FieldConfigItem) : option Component :=
  let '(mkFieldConfigItem _ _ r _) := c in r.
Definition nested (c : FieldConfigItem) : FieldConfig :=
  let '(mkFieldConfigItem _ _ _ n) := c in n.

(** The object literal [{}]. *)
Definition emptyItem : FieldConfigItem := mkFieldConfigItem None None None [].

Fixpoint assoc {A : Type} (name : string) (l : list (string * A)) : option A :=
  match l with
  | [] => None
  | (k, v) :: rest => if k =? name then Some v else assoc name rest
  end.

(** [fieldConfig?.[name]] *)
Definition lookupConfig (fieldConfig : option FieldConfig) (name : string)
  : option FieldConfigItem :=
  match fieldConfig with
  | Some fc => assoc name fc
  | None => None
  end.

Definition truthy (b : option bool) : bool :=
  match b with
  | Some true => true
  | _ => false
  end.

(** *** What the walker imports *)

Record DependencyResult : Type := mkDependencyResult {
  isHidden : bool;
  isDisabled : bool;
  isRequired : bool;
  overrideOptions : option (list string)
}.

(** The helpers and tables [AutoFormObject] imports from [../utils],
    [../dependencies] and [../config]; their sources are not at hand, so the
    walker is stated over any of them. *)
Class Imports : Type := mkImports {
  Dependency : Type;
  Watch : Type;
  getBaseSchema : ZodTypeAny -> option ZodTypeAny;
  getBaseType : ZodTypeAny -> string;
  beautifyObjectName : string -> string;
  zodToHtmlInputProps : ZodTypeAny -> InputProps;
  resolveDependencies : list Dependency -> string -> Watch -> DependencyResult;
  DEFAULT_ZOD_HANDLERS : string -> option string;
  INPUT_COMPONENTS : string -> option Component
}.

(** *** One pass over the keys of a shape *)

(** The properties of the nested [<AutoFormObject>] element. *)
Record AutoFormObjectProps : Type := mkAutoFormObjectProps {
  props_schema : ZodTypeAny;
  props_fieldConfig : FieldConfig;
  props_path : list string
}.

(** What the [render] property of a [<FormField>] closes over. *)
Record FormFieldData : Type := mkFormFieldData {
  field_label : string;
  field_zodBaseType : string;
  field_fieldConfigItem : FieldConfigItem;
  field_zodInputProps : InputProps;
  field_isRequired : bool;
  field_isDisabled : bool;
  field_zodItem : ZodTypeAny
}.

(** The element the callback of [Object.keys(shape).map] returns for a
    key; [null] is [None] in [element] below. *)
Inductive Element : Type :=
| AccordionItem (value key itemName : string) (child : AutoFormObjectProps)
| AutoFormArray (key name : string) (item : ZodTypeAny)
    (fieldConfig : FieldConfigItem) (path : list string)
| FormField (name : string) (data : FormFieldData).

(** The outcome of the callback for one key: the node [shape[name]] as
    the callback leaves it, the names it looked up in [fieldConfig], in
    order, and the element it returns. *)
Record KeyResult : Type := mkKeyResult {
  after : ZodTypeAny;
  lookups : list string;
  element : option Element
}.

Section Walk.

Context {imports : Imports}.

Definition orEmpty (c : option FieldConfigItem) : FieldConfigItem :=
  match c with
  | Some c => c
  | None => emptyItem
  end.

(** The [overrideFieldConfig] of a primitive array. *)
Definition overrideFieldConfig (entry : option FieldConfigItem)
    (isEnumOfPrimitives : bool) : FieldConfigItem :=
  mkFieldConfigItem
    (Some (FieldTypeKey "selectmultiinput"))
    (Some (spread
             (match entry with
              | Some c =>
                match inputProps c with
                | Some ip => ip
                | None => noInputProps
                end
              | None => noInputProps
              end)
             (mkInputProps None None None (Some (negb isEnumOfPrimitives)) None)))
    (match entry with Some c => renderParent c | None => None end)
    (match entry with Some c => nested c | None => [] end).

(** The tail of the callback, from [const fieldConfigItem] on. *)
Definition formField (name key itemName zodBaseType : string)
    (fieldConfigItem : FieldConfigItem) (item : ZodTypeAny)
    (deps : DependencyResult) : Element :=
  let zodInputProps := zodToHtmlInputProps item in
  let isRequired :=
    isRequired deps
    || truthy (required zodInputProps)
    || match inputProps fieldConfigItem with
       | Some ip => truthy (required ip)
       | None => false
       end
    || false in
  let item :=
    match overrideOptions deps with
    | Some opts => ZodEnum None opts
    | None => item
    end in
  FormField key
    (mkFormFieldData itemName zodBaseType fieldConfigItem zodInputProps
       isRequired (isDisabled deps) item).

(** The callback of [Object.keys(shape).map], on the key [name] whose
    node is [item0]. *)
Definition renderKey (fieldConfig : option FieldConfig) (path : list string)
    (dependencies : list Dependency) (watch : Watch)
    (name : string) (item0 : ZodTypeAny) : KeyResult :=
  let item := handleIfZodNumber item0 in
  let zodBaseType := getBaseType item in
  let itemName :=
    match description item with
    | Some d => d
    | None => beautifyObjectName name
    end in
  let key := String.concat "." (path ++ [name]) in
  let deps := resolveDependencies dependencies name watch in
  if isHidden deps then mkKeyResult item [] None
  else if zodBaseType =? "ZodObject" then
    mkKeyResult item [name]
      (Some (AccordionItem name key itemName
               (mkAutoFormObjectProps item
                  (nested (orEmpty (lookupConfig fieldConfig name)))
                  (path ++ [name]))))
  else if zodBaseType =? "ZodArray" then
    let info := isZodPrimitiveArray item in
    if isPrimitiveArray info || isEnumOfPrimitives info then
      mkKeyResult item [name; name]
        (Some (formField name key itemName zodBaseType
                 (overrideFieldConfig (lookupConfig fieldConfig name)
                    (isEnumOfPrimitives info))
                 (innerType info) deps))
    else
      mkKeyResult item [name]
        (Some (AutoFormArray key name item
                 (orEmpty (lookupConfig fieldConfig name)) (path ++ [name])))
  else
    mkKeyResult item [name]
      (Some (formField name key itemName zodBaseType
               (orEmpty (lookupConfig fieldConfig name)) item deps)).

(** The whole [map]: the shape as the pass leaves it, every lookup made,
    and the children of the [<Accordion>]. *)
Record WalkResult : Type := mkWalkResult {
  shapeAfter : Shape;
  allLookups : list string;
  children : list (option Element)
}.

Definition walk (fieldConfig : option FieldConfig) (path : list string)
    (dependencies : list Dependency) (watch : Watch) (shape : Shape)
  : WalkResult :=
  let results :=
    map (fun '(name, item) =>
           (name, renderKey fieldConfig path dependencies watch name item))
        shape in
  mkWalkResult
    (map (fun '(name, r) => (name, after r)) results)
    (List.concat (map (fun '(_, r) => lookups r) results))
    (map (fun '(_, r) => element r) results).

(** [AutoFormObject]: [None] is the [return null] of a missing schema or
    shape, before the keys are walked. *)
Definition AutoFormObject (schema : option ZodTypeAny)
    (fieldConfig : option FieldConfig) (path : list string)
    (dependencies : list Dependency) (watch : Watch) : option WalkResult :=
  match schema with
  | None => None
  | Some schema =>
    match getBaseSchema schema with
    | Some (ZodObject _ shape) =>
      Some (walk fieldConfig path dependencies watch shape)
    | _ => None
    end
  end.

(** *** Rendering a form field *)

(** [inputType] and [InputComponent] of the [render] property. *)
Definition InputComponent (data : FormFieldData) : option Component :=
  let inputType :=
    match fieldType (field_fieldConfigItem data) with
    | Some t => t
    | None =>
      match DEFAULT_ZOD_HANDLERS (field_zodBaseType data) with
      | Some k => FieldTypeKey k
      | None => FieldTypeKey "fallback"
      end
    end in
  match inputType with
  | FieldTypeComponent c => Some c
  | FieldTypeKey k => INPUT_COMPONENTS k
  end.

(** What [render] returns, for the value [field.value] of the form: the
    parent, the widget and the properties it is given.  [None] is the
    empty fragment. *)
Record Rendered : Type := mkRendered {
  rendered_parent : option Component;
  rendered_component : Component;
  rendered_label : string;
  rendered_isRequired : bool;
  rendered_zodItem : ZodTypeAny;
  rendered_fieldProps : InputProps;
  rendered_disabled : bool;
  rendered_value : string
}.

Definition render (data : FormFieldData) (field_value : option string)
  : option Rendered :=
  let ip :=
    match inputProps (field_fieldConfigItem data) with
    | Some ip => ip
    | None => noInputProps
    end in
  let value :=
    match orElse field_value (defaultValue ip) with
    | Some v => v
    | None => ""
    end in
  match InputComponent data with
  | None => None
  | Some c =>
    Some (mkRendered
            (renderParent (field_fieldConfigItem data)) c (field_label data)
            (field_isRequired data) (field_zodItem data)
            (spread (zodToHtmlInputProps (field_zodItem data)) ip)
            (truthy (disabled ip) || field_isDisabled data)
            value)
  end.

(** Whether a child of the [<Accordion>] puts a field on the page. *)
Definition rendersField (e : option Element) : bool :=
  match e with
  | None => false
  | Some (AccordionItem _ _ _ _) => true
  | Some (AutoFormArray _ _ _ _ _) => true
  | Some (FormField _ data) =>
    match InputComponent data with
    | Some _ => true
    | None => false
    end
  end.

Definition isElement (e : option Element) : bool :=
  match e with
  | Some _ => true
  | None => false
  end.

(** A form field whose widget is undefined. *)
Definition isDropped (e : option Element) : bool :=
  match e with
  | Some (FormField _ data) =>
    match InputComponent data with
    | Some _ => false
    | None => true
    end
  | _ => false
  end.

(** The keys of [shape] no dependency hides. *)
Definition notHidden (dependencies : list Dependency) (watch : Watch)
    (shape : Shape) : list string :=
  filter (fun name => negb (isHidden (resolveDependencies dependencies name watch)))
         (map fst shape).

End Walk.

End Walker.

(** ** Specification vocabulary *)

Module Spec.

(** [Kept P l l']: [l'] is [l] with exactly the entries that satisfy [P],
    in the order of [l]. *)
Inductive Kept {A : Type} (P : A -> Prop) : list A -> list A -> Prop :=
| Kept_nil : Kept P [] []
| Kept_keep a l l' : P a -> Kept P l l' -> Kept P (a :: l) (a :: l')
| Kept_drop a l l' : ~ P a -> Kept P l l' -> Kept P (a :: l) l'.

(** [sub] occurs in [s]. *)
Definition Occurs (sub s : string) : Prop :=
  exists pre post, s = (pre ++ sub ++ post)%string.

(** An option of the pool is a candidate when no selected entry has its
    value and, unless an async search is configured, its value contains
    the query, both in lower case. *)
Definition Candidate (p : MultipleSelector.Props) (st : MultipleSelector.State)
    (o : MultipleSelector.Option) : Prop :=
  (forall s, In s (MultipleSelector.selected st) ->
             MultipleSelector.value s <> MultipleSelector.value o)
  /\ (MultipleSelector.onSearch p = None ->
      Occurs (JsString.toLowerCase (MultipleSelector.debouncedSearchTerm st))
             (JsString.toLowerCase (MultipleSelector.value o))).

(** The element types that make an array one multi-select field: the
    primitives (string, number, boolean) and the enums. *)
Definition isPrimitive (z : Walker.ZodTypeAny) : bool :=
  match z with
  | Walker.ZodString _ | Walker.ZodNumber _ _ | Walker.ZodBoolean _ => true
  | _ => false
  end.

Definition isEnum (z : Walker.ZodTypeAny) : bool :=
  match z with
  | Walker.ZodEnum _ _ => true
  | _ => false
  end.

End Spec.

(** ** Concrete inputs *)

Module Demo.

Import MultipleSelector.

Definition plain (v : string) : Option := mkOption v v None None.

Definition fixedOption (v : string) : Option := mkOption v v None (Some true).

Definition props (maxSelected : Z) : Props :=
  mkProps None [] maxSelected true false None true true.

(** A widget whose host hands in the selection [a], [b], [a]. *)
Definition repeated : Props :=
  mkProps (Some [plain "a"; plain "b"; plain "a"]) [] MAX_SAFE_INTEGER
          false false None true true.

(** A widget with the pool [x], [y], [Yak] and nothing typed. *)
Definition state (selected : list Option) : State :=
  mkState selected [plain "x"; mkOption "y" "why" (Some true) None; plain "Yak"]
          "" "" false true.

(** An [onSearch] whose promise rejects. *)
Definition failingSearch : string -> Settled (list Option) :=
  fun _ => Rejected "offline".

Definition asyncProps : Props :=
  mkProps None [] MAX_SAFE_INTEGER false false (Some failingSearch) true true.

(** The widget once the debounced query is [ab]. *)
Definition typing : State :=
  mkState [] [plain "x"] "ab" "ab" false true.

End Demo.

(** ** An instance of the walker's imports *)

Module WalkerDemo.

Import Walker.

(** Modelled from the spec: [getBaseSchema] of [../utils], whose source
    is not at hand.  It strips the optional and default wrappers, all of
    them, and gives the node underneath. *)
Fixpoint getBaseSchema (z : ZodTypeAny) : ZodTypeAny :=
  match z with
  | ZodOptional _ i | ZodDefault _ i => getBaseSchema i
  | _ => z
  end.

(** Modelled from the spec: [getBaseType] of [../utils], the type tag of
    the node once its optional and default wrappers are stripped. *)
Definition getBaseType (z : ZodTypeAny) : string := typeName (getBaseSchema z).

Definition isUpper (c : ascii) : bool :=
  let n := nat_of_ascii c in (65 <=? n)%nat && (n <=? 90)%nat.

Definition upper_ascii (c : ascii) : ascii :=
  let n := nat_of_ascii c in
  if (97 <=? n)%nat && (n <=? 122)%nat then ascii_of_nat (n - 32) else c.

Fixpoint spaced (s : string) : string :=
  match s with
  | EmptyString => EmptyString
  | String c s' =>
    if isUpper c then String " " (String c (spaced s')) else String c (spaced s')
  end.

(** Modelled from the spec: [beautifyObjectName] of [../utils], a label
    made of the key with a space before each capital letter and a
    capital first letter. *)
Definition beautifyObjectName (name : string) : string :=
  match spaced name with
  | EmptyString => EmptyString
  | String c s' => String (upper_ascii c) s'
  end.

(** Modelled from the spec: [zodToHtmlInputProps] of [../utils], as far
    as the walker reads it: a field is required by its schema unless the
    node is an optional or default wrapper. *)
Definition zodToHtmlInputProps (z : ZodTypeAny) : InputProps :=
  mkInputProps
    (Some (match z with
           | ZodOptional _ _ | ZodDefault _ _ => false
           | _ => true
           end))
    None None None None.

(** The effect of a dependency rule. *)
Inductive DependencyType : Type :=
| HIDES
| DISABLES
| REQUIRES
| SETS_OPTIONS (options : list string).

(** Modelled from the spec: a dependency rule, with the field it reads,
    the field it acts on, its predicate on the value read and its
    effect. *)
Record Dependency : Type := mkDependency {
  sourceField : string;
  targetField : string;
  type : DependencyType;
  when : string -> bool
}.

(** The values of the form, by field name. *)
Definition Watch : Type := string -> string.

(** Modelled from the spec: [resolveDependencies] of [../dependencies].
    Every rule on [name] whose predicate holds of the watched value
    contributes its effect. *)
Fixpoint resolveDependencies (dependencies : list Dependency) (name : string)
    (watch : Watch) : DependencyResult :=
  match dependencies with
  | [] => mkDependencyResult false false false None
  | d :: rest =>
    let r := resolveDependencies rest name watch in
    if (targetField d =? name) && when d (watch (sourceField d)) then
      match type d with
      | HIDES =>
        mkDependencyResult true (isDisabled r) (isRequired r) (overrideOptions r)
      | DISABLES =>
        mkDependencyResult (isHidden r) true (isRequired r) (overrideOptions r)
      | REQUIRES =>
        mkDependencyResult (isHidden r) (isDisabled r) true (overrideOptions r)
      | SETS_OPTIONS opts =>
        mkDependencyResult (isHidden r) (isDisabled r) (isRequired r)
          (orElse (overrideOptions r) (Some opts))
      end
    else r
  end.

(** A type-to-widget table and a widget table to run the walker with;
    the source of [../config] is not at hand. *)
Definition DEFAULT_ZOD_HANDLERS (zodBaseType : string) : option string :=
  assoc zodBaseType
    [("ZodBoolean", "checkbox"); ("ZodEnum", "select"); ("ZodNumber", "number")].

Definition INPUT_COMPONENTS (key : string) : option Component :=
  assoc key
    [("checkbox", "AutoFormCheckbox"); ("select", "AutoFormEnum");
     ("number", "AutoFormNumber"); ("fallback", "AutoFormInput");
     ("selectmultiinput", "AutoFormEnumMultiInput")].

Definition imports : Imports :=
  mkImports Dependency Watch (fun z => Some (getBaseSchema z)) getBaseType
    beautifyObjectName zodToHtmlInputProps resolveDependencies
    DEFAULT_ZOD_HANDLERS INPUT_COMPONENTS.

(** A form with an age that a rule hides while [hasAge] is [no]. *)
Definition hideAge : list Dependency :=
  [mkDependency "hasAge" "age" HIDES (fun v => v =? "no")].

Definition answers : Watch :=
  fun name => if name =? "hasAge" then "no" else "".

Definition person : Shape :=
  [("firstName", ZodString None);
   ("age", ZodNumber None false);
   ("tags", ZodDefault None (ZodArray None (ZodString None)));
   ("roles", ZodArray None (ZodEnum None ["admin"; "user"]))].

(** Rules that disable [firstName] and give it two options while
    [hasAge] is [no]. *)
Definition nameRules : list Dependency :=
  [mkDependency "hasAge" "firstName" DISABLES (fun v => v =? "no");
   mkDependency "hasAge" "firstName" (SETS_OPTIONS ["Ann"; "Bob"])
                (fun v => v =? "no")].

(** A rule that hides [tags] while [hasAge] is [no]. *)
Definition hideTags : list Dependency :=
  [mkDependency "hasAge" "tags" HIDES (fun v => v =? "no")].

(** A field configuration that asks for a widget the table lacks. *)
Definition ghostConfig : FieldConfig :=
  [("firstName", mkFieldConfigItem (Some (FieldTypeKey "ghost")) None None [])].

End WalkerDemo.

(** ** The debounce hook *)

Module Debounce.

(** A JavaScript number that may be absent, as far as [||] sees it:
    [undefined] and [0] are falsy. *)
Definition orNumber (a : option Z) (b : Z) : Z :=
  match a with
  | Some n => if (n =? 0)%Z then b else n
  | None => b
  end.

(** The delay of the timer [useDebounce] sets when [MultipleSelector]
    calls it with [delay || 250]: inside the hook it is [delay || 500]. *)
Definition timerDelay (delay : option Z) : Z :=
  orNumber (Some (orNumber delay 250)) 500.

(** [useDebounce] on a string: the latest [value] it was rendered with,
    the state cell [debouncedValue], and whether the timer of the last
    effect is still pending. *)
Record Hook : Type := mkHook {
  value : string;
  debouncedValue : string;
  pending : bool
}.

(** The first render: [useState(value)], and the effect sets a timer. *)
Definition mount (v : string) : Hook := mkHook v v true.

(** What happens to the hook: a render with the value [v], or the
    pending timer running out. *)
Inductive Event : Type :=
| Render (v : string)
| Timeout.

(** One event, and the argument of [setDebouncedValue] when the event
    calls it.  A render with a new value runs the cleanup of the effect
    ([clearTimeout]) and the effect again, which sets a new timer; a
    render with the same value leaves the effect alone. *)
Definition step (h : Hook) (e : Event) : Hook * option string :=
  match e with
  | Render v =>
    if v =? value h then (h, None)
    else (mkHook v (debouncedValue h) true, None)
  | Timeout =>
    if pending h then (mkHook (value h) (value h) false, Some (value h))
    else (h, None)
  end.

(** A sequence of events, and the calls of [setDebouncedValue] in
    order. *)
Fixpoint run (h : Hook) (events : list Event) : Hook * list string :=
  match events with
  | [] => (h, [])
  | e :: rest =>
    let '(h1, call) := step h e in
    let '(h2, calls) := run h1 rest in
    (h2, match call with Some v => v :: calls | None => calls end)
  end.

End Debounce.

(** ** More of the multi-select widget *)

Module SelectorView.

Import MultipleSelector.

(** Whether the clear-all button has the class [hidden]. *)
Definition clearAllHidden (hideClearAllButton disabled : bool) (st : State)
  : bool :=
  hideClearAllButton
  || disabled
  || (List.length (selected st) <? 1)%nat
  || (List.length (filter (fun s => truthy (fixed s)) (selected st))
      =? List.length (selected st))%nat.

(** Whether the remove button of the badge of [option] has the class
    [hidden]. *)
Definition unselectHidden (disabled : bool) (option : Option) : bool :=
  disabled || truthy (fixed option).

(** The effect on the manually controlled [options] property;
    [sameJSON a b] is [JSON.stringify(a) === JSON.stringify(b)]. *)
Definition syncOptions (sameJSON : list Option -> list Option -> bool)
    (arrayOptions : option (list Option)) (p : Props) (st : State) : State :=
  match arrayOptions, onSearch p with
  | None, _ => st
  | Some _, Some _ => st
  | Some newOption, None =>
    if negb (sameJSON newOption (options st)) then setOptions newOption st
    else st
  end.

(** [JSON.stringify(a) === JSON.stringify(b)] for options written with
    their properties in the order of the interface: the same values,
    labels and flags, entry by entry. *)
Definition sameFlag (a b : option bool) : bool :=
  match a, b with
  | Some x, Some y => Bool.eqb x y
  | None, None => true
  | _, _ => false
  end.

Definition sameOption (a b : Option) : bool :=
  (value a =? value b) && (label a =? label b)
  && sameFlag (disable a) (disable b) && sameFlag (fixed a) (fixed b).

Fixpoint sameOptions (a b : list Option) : bool :=
  match a, b with
  | [], [] => true
  | x :: a', y :: b' => sameOption x y && sameOptions a' b'
  | _, _ => false
  end.

End SelectorView.

(** ** The form field around the widget *)

Module EnumMultiInput.

Import MultipleSelector.

(** [getBaseSchema(zodItem)._def.values]: the array of a zod enum, the
    object of a native enum, or nothing. *)
Inductive BaseValues : Type :=
| ValuesArray (values : list string)
| ValuesObject (entries : list (string * string))
| ValuesUndefined.

(** The [options] handed to the widget as [defaultOptions]; [creatable]
    is [fieldProps.creatable]. *)
Definition enumOptions (creatable : option bool) (baseValues : BaseValues)
  : list Option :=
  if negb (truthy creatable) then
    match baseValues with
    | ValuesArray values => map (fun val => mkOption val val None None) values
    | ValuesObject entries =>
      map (fun '(_, v) => mkOption v v None None) entries
    | ValuesUndefined => []
    end
  else [].

(** [field.value || []] *)
Definition valuesOf (field_value : option (list string)) : list string :=
  match field_value with
  | Some l => l
  | None => []
  end.

(** The [value] handed to the widget: [(field.value || []).map(...)]. *)
Definition toOptions (field_value : option (list string)) : list Option :=
  map (fun val => mkOption val val None None)
      (match field_value with
       | Some l => l
       | None => []
       end).

(** [handleOnChange], by the argument it gives [field.onChange]. *)
Definition handleOnChange (options : list Option) : list string :=
  map MultipleSelector.value options.

(** The form value after the calls a handler of the widget made: the
    widget's [onChange] is [handleOnChange]. *)
Fixpoint fieldAfter (calls : list Call) (field_value : option (list string))
  : option (list string) :=
  match calls with
  | [] => field_value
  | CallOnChange newOptions :: rest =>
    fieldAfter rest (Some (handleOnChange newOptions))
  | _ :: rest => fieldAfter rest field_value
  end.

(** Truthiness of a string property that may be absent. *)
Definition truthyString (s : option string) : bool :=
  match s with
  | Some EmptyString => false
  | Some _ => true
  | None => false
  end.

(** The [placeholder] handed to the widget:
    [placeholder || creatable ? ... : ...], in which [||] binds tighter
    than [?:]. *)
Definition placeholder (placeholder : option string) (creatable : option bool)
  : string :=
  if truthyString placeholder || truthy creatable
  then "Type to create" else "Search...".

(** The text of the [emptyIndicator] handed to the widget;
    [emptyIndicator] says whether [fieldProps.emptyIndicator] is
    truthy. *)
Definition emptyIndicator (emptyIndicator : bool) (creatable : option bool)
  : string :=
  if emptyIndicator || truthy creatable
  then "Start typing to create an option" else "No options found".

End EnumMultiInput.

(** ** More of the schema walker *)

Module WalkerView.

Import Walker.

(** The [key] attribute of an element. *)
Definition elementKey (e : Element) : string :=
  match e with
  | AccordionItem _ key _ _ => key
  | AutoFormArray key _ _ _ _ => key
  | FormField key _ => key
  end.

(** The [key] attributes of the children of the [<Accordion>]. *)
Definition childKeys (children : list (option Element)) : list string :=
  flat_map (fun c => match c with
                     | Some e => [elementKey e]
                     | None => []
                     end) children.

(** Rendering the nested [<AutoFormObject>] of an accordion item: it is
    given no [dependencies], so they are [[]]. *)
Definition renderChild {imports : Imports} (props : AutoFormObjectProps)
    (watch : Watch) : option WalkResult :=
  AutoFormObject (Some (props_schema props)) (Some (props_fieldConfig props))
    (props_path props) [] watch.

End WalkerView.

(** ** Facts about strings and lists *)

Module Facts.

Import JsString Spec.

Lemma startsWith_spec (sub s : string) :
  startsWith s sub = true <-> exists post, s = (sub ++ post)%string.
Proof.
  revert s; induction sub as [|a sub IH]; intros s; simpl.
  - split; [intros _; now exists s | reflexivity].
  - destruct s as [|b s]; simpl.
    + split; [discriminate | intros [post H]; discriminate].
    + rewrite andb_true_iff, Ascii.eqb_eq, IH. split.
      * intros [-> [post ->]]. now exists post.
      * intros [post H]. injection H as -> ->. split; [reflexivity | now exists post].
Qed.

Lemma includes_spec (s sub : string) :
  includes s sub = true <-> Occurs sub s.
Proof.
  unfold Occurs. induction s as [|c s IH].
  - cbn [includes]. rewrite orb_false_r, startsWith_spec. split.
    + intros [post H]. now exists ""%string, post.
    + intros [pre [post H]]. destruct pre; [now exists post | discriminate].
  - cbn [includes]. rewrite orb_true_iff, startsWith_spec, IH. split.
    + intros [[post H] | [pre [post H]]].
      * now exists ""%string, post.
      * exists (String c pre), post. simpl. now rewrite H.
    + intros [pre [post H]]. destruct pre as [|c' pre]; simpl in H.
      * left. now exists post.
      * right. injection H as _ H. now exists pre, post.
Qed.

Lemma includes_empty (s : string) : includes s "" = true.
Proof. destruct s; reflexivity. Qed.

Lemma Kept_filter {A : Type} (P : A -> Prop) (f : A -> bool) (l : list A) :
  (forall a, In a l -> (f a = true <-> P a)) -> Kept P l (filter f l).
Proof.
  induction l as [|a l IH]; intros H; simpl.
  - constructor.
  - assert (Hl : Kept P l (filter f l)) by (apply IH; intros; apply H; now right).
    destruct (f a) eqn:E.
    + apply Kept_keep; [apply H; [now left | exact E] | exact Hl].
    + apply Kept_drop; [|exact Hl]. intros HP. apply H in HP; [congruence | now left].
Qed.

Lemma Kept_functional {A : Type} (P : A -> Prop) (l l1 l2 : list A) :
  Kept P l l1 -> Kept P l l2 -> l1 = l2.
Proof.
  intros H1; revert l2; induction H1; intros l2 H2; inversion H2; subst;
    try reflexivity; try contradiction.
  - f_equal. now apply IHKept.
  - now apply IHKept.
Qed.

Lemma Kept_In {A : Type} (P : A -> Prop) (l l' : list A) :
  Kept P l l' -> forall a, In a l' <-> In a l /\ P a.
Proof.
  induction 1; intros x; simpl.
  - tauto.
  - rewrite IHKept. split.
    + intros [-> | [? ?]]; auto.
    + intros [[-> | ?] ?]; auto.
  - rewrite IHKept. split.
    + intros [? ?]; auto.
    + intros [[-> | ?] ?]; [contradiction | auto].
Qed.

Lemma filter_all {A : Type} (f : A -> bool) (l : list A) :
  (forall a, In a l -> f a = true) -> filter f l = l.
Proof.
  induction l as [|a l IH]; intros H; simpl; [reflexivity|].
  rewrite (H a (or_introl eq_refl)). f_equal. apply IH. intros; apply H; now right.
Qed.

Lemma nth_error_last {A : Type} (init : list A) (a : A) :
  nth_error (init ++ [a]) (List.length (init ++ [a]) - 1) = Some a.
Proof.
  rewrite length_app. simpl.
  replace (List.length init + 1 - 1) with (List.length init) by lia.
  rewrite nth_error_app2 by lia. now rewrite Nat.sub_diag.
Qed.

End Facts.

(** ** Properties of the multi-select widget *)

Module SelectorTheorems.

Import JsString MultipleSelector Spec Facts.

Lemma find_none_iff (picked : list Option) (v : string) :
  find (fun p => value p =? v) picked = None <->
  forall s, In s picked -> value s <> v.
Proof.
  split.
  - intros H s Hs E.
    apply (find_none _ _ H) in Hs. rewrite E, String.eqb_refl in Hs. discriminate.
  - intros H. destruct (find _ picked) as [s|] eqn:E; [|reflexivity].
    apply find_some in E. destruct E as [Hs E]. apply String.eqb_eq in E.
    now apply H in Hs.
Qed.

Lemma CommandGroupContent_items (sel : list Option) (vitems : list nat) :
  forall items, CommandGroupContent sel vitems = Some items ->
  forall it, In it items ->
    In (item_option it) sel
    /\ item_value it = value (item_option it)
    /\ item_disabled it = disable (item_option it).
Proof.
  induction vitems as [|i vitems IH]; simpl; intros items H it Hit.
  - injection H as <-. destruct Hit.
  - destruct (nth_error sel i) as [o|] eqn:Eo; [|discriminate].
    destruct (CommandGroupContent sel vitems) as [rest|]; [|discriminate].
    injection H as <-. destruct Hit as [<- | Hit].
    + simpl. split; [eapply nth_error_In; eassumption | split; reflexivity].
    + now apply (IH rest).
Qed.

Lemma removePickedOption_flags (options picked : list Option) (term : string) :
  forall c, In c (removePickedOption options picked term) ->
  disable c = None /\ fixed c = None.
Proof.
  intros c H. unfold removePickedOption in H. apply in_map_iff in H.
  destruct H as [o [<- _]]. split; reflexivity.
Qed.

(** C1. Selecting a candidate, from the list or the create item, when
    the selection already holds [maxSelected] entries or more leaves the
    whole state as it is (the selection, and the query text too) and
    makes one call, to the max-selected callback; below [maxSelected]
    the candidate goes to the end of the selection, the query text
    becomes empty and the change callback gets the new selection. *)
Theorem select_respects_maxSelected
    (p : Props) (st : State) (option : Option) (v : string) :
  ((maxSelected p <= Z.of_nat (List.length (selected st)))%Z ->
     onSelect p option st
       = (st, [CallOnMaxSelected (List.length (selected st))])
     /\ creatableOnSelect p v st
       = (st, [CallOnMaxSelected (List.length (selected st))]))
  /\
  ((Z.of_nat (List.length (selected st)) < maxSelected p)%Z ->
     (selected (fst (onSelect p option st)) = selected st ++ [option]
      /\ inputValue (fst (onSelect p option st)) = ""
      /\ snd (onSelect p option st) = [CallOnChange (selected st ++ [option])])
     /\
     (selected (fst (creatableOnSelect p v st))
        = selected st ++ [mkOption v v None None]
      /\ inputValue (fst (creatableOnSelect p v st)) = ""
      /\ snd (creatableOnSelect p v st)
        = [CallOnChange (selected st ++ [mkOption v v None None])])).
Proof.
  unfold onSelect, creatableOnSelect. split; intros H.
  - apply Z.leb_le in H. rewrite H. split; reflexivity.
  - apply Z.leb_gt in H. rewrite H. simpl. repeat split.
Qed.

Lemma select_respects_maxSelected_witness :
  (onSelect (Demo.props 1) (Demo.plain "x") (Demo.state [Demo.plain "a"])
     = (Demo.state [Demo.plain "a"], [CallOnMaxSelected 1]))
  /\ (selected (fst (creatableOnSelect (Demo.props 2) "new" (Demo.state [Demo.plain "a"])))
     = [Demo.plain "a"; Demo.plain "new"]).
Proof.
  split.
  - apply (proj1 (select_respects_maxSelected
                    (Demo.props 1) (Demo.state [Demo.plain "a"]) (Demo.plain "x") "new")).
    simpl. lia.
  - apply (proj2 (select_respects_maxSelected
                    (Demo.props 2) (Demo.state [Demo.plain "a"]) (Demo.plain "x") "new")).
    simpl. lia.
Defined.

(** What reaches the host when both callbacks were supplied is the list
    of calls itself. *)
Lemma reachesHost_all (p : Props) (calls : list Call) :
  onChange p = true -> onMaxSelected p = true ->
  filter (reachesHost p) calls = calls.
Proof.
  intros Hc Hm. apply filter_all. intros [l | n | ] _; simpl; auto.
Qed.

(** C5. Clear-all keeps exactly the entries whose [fixed] flag is true,
    in their order, changes nothing else in the state, and hands that
    same list to the change callback, in one call. *)
Theorem clearAll_keeps_fixed (st : State) :
  Kept (fun s => fixed s = Some true) (selected st) (selected (fst (clearAll st)))
  /\ snd (clearAll st) = [CallOnChange (selected (fst (clearAll st)))]
  /\ options (fst (clearAll st)) = options st
  /\ inputValue (fst (clearAll st)) = inputValue st.
Proof.
  unfold clearAll; simpl. repeat split.
  apply Kept_filter. intros s _. unfold truthy.
  destruct (fixed s) as [[|]|]; split; congruence.
Qed.

(** The example of the specification for clear-all. *)
Example clearAll_example :
  selected (fst (clearAll (Demo.state [Demo.fixedOption "a"; Demo.plain "b"])))
  = [Demo.fixedOption "a"].
Proof. reflexivity. Qed.

Lemma handleKeyDown_delete (q key : string) (st : State) :
  key = "Backspace" \/ key = "Delete" ->
  handleKeyDown (Some q) key st =
  if (q =? "") && (0 <? List.length (selected st))%nat then
    match nth_error (selected st) (List.length (selected st) - 1) with
    | Some lastSelectOption =>
      if negb (truthy (fixed lastSelectOption))
      then handleUnselect lastSelectOption st
      else (st, [])
    | None => (st, [])
    end
  else (st, []).
Proof.
  intros Hkey. unfold handleKeyDown.
  assert (Hd : (key =? "Delete") || (key =? "Backspace") = true)
    by (destruct Hkey as [-> | ->]; reflexivity).
  assert (He : (key =? "Escape") = false)
    by (destruct Hkey as [-> | ->]; reflexivity).
  rewrite Hd, He.
  destruct ((q =? "") && (0 <? List.length (selected st))%nat); [|reflexivity].
  destruct (nth_error _ _) as [o|]; [|reflexivity].
  destruct (negb (truthy (fixed o))); [|reflexivity].
  now destruct (handleUnselect o st).
Qed.

Lemma filter_other_values (init : list Option) (o : Option) :
  NoDup (map value (init ++ [o])) ->
  filter (fun s => negb (value s =? value o)) init = init.
Proof.
  intros H. rewrite map_app in H. simpl in H.
  apply NoDup_remove_2 in H. rewrite app_nil_r in H.
  apply filter_all. intros s Hs. apply negb_true_iff, String.eqb_neq.
  intros E. apply H. rewrite <- E. now apply in_map.
Qed.

(** C6, as the code has it. On a selection that ends with
    [lastSelectOption], Backspace or Delete on an empty query does
    nothing when that entry is fixed; otherwise it keeps exactly the
    entries whose value differs from the value of [lastSelectOption],
    hands the result to the change callback, and, when the selected
    values are pairwise distinct, the result is the selection without
    its last entry.  On a non-empty query the state is unchanged. *)
Theorem backspace_removes_last_value
    (st : State) (init : list Option) (lastSelectOption : Option) (key : string) :
  selected st = init ++ [lastSelectOption] ->
  key = "Backspace" \/ key = "Delete" ->
  (truthy (fixed lastSelectOption) = true ->
     handleKeyDown (Some "") key st = (st, []))
  /\ (truthy (fixed lastSelectOption) = false ->
      Kept (fun s => value s <> value lastSelectOption) (selected st)
           (selected (fst (handleKeyDown (Some "") key st)))
      /\ snd (handleKeyDown (Some "") key st)
         = [CallOnChange (selected (fst (handleKeyDown (Some "") key st)))]
      /\ (NoDup (map value (selected st)) ->
          selected (fst (handleKeyDown (Some "") key st)) = init))
  /\ (forall q, q <> "" -> handleKeyDown (Some q) key st = (st, [])).
Proof.
  intros Hsel Hkey.
  assert (E : handleKeyDown (Some "") key st
              = if negb (truthy (fixed lastSelectOption))
                then handleUnselect lastSelectOption st else (st, [])).
  { rewrite (handleKeyDown_delete _ _ _ Hkey).
    assert (Hlen : (0 <? List.length (selected st))%nat = true).
    { rewrite Hsel, length_app. simpl. apply Nat.ltb_lt. lia. }
    assert (Hn : nth_error (selected st) (List.length (selected st) - 1)
                 = Some lastSelectOption)
      by (rewrite Hsel; apply nth_error_last).
    rewrite Hlen, Hn. reflexivity. }
  rewrite E. repeat split.
  - intros Hfixed. now rewrite Hfixed.
  - rewrite H. simpl. apply Kept_filter.
    intros s _. rewrite negb_true_iff. apply String.eqb_neq.
  - now rewrite H.
  - intros Hnodup. rewrite H. simpl. rewrite Hsel in *.
    rewrite filter_app. simpl. rewrite String.eqb_refl. simpl.
    rewrite app_nil_r. now apply filter_other_values.
  - intros q Hq. rewrite (handleKeyDown_delete _ _ _ Hkey).
    apply String.eqb_neq in Hq. now rewrite Hq.
Qed.

Lemma backspace_removes_last_value_witness :
  handleKeyDown (Some "") "Backspace"
    (Demo.state [Demo.plain "a"; Demo.fixedOption "b"])
  = (Demo.state [Demo.plain "a"; Demo.fixedOption "b"], [])
  /\ selected (fst (handleKeyDown (Some "") "Delete"
                      (Demo.state [Demo.plain "a"; Demo.plain "b"])))
     = [Demo.plain "a"].
Proof.
  split.
  - apply (proj1 (backspace_removes_last_value
                    (Demo.state [Demo.plain "a"; Demo.fixedOption "b"])
                    [Demo.plain "a"] (Demo.fixedOption "b") "Backspace"
                    eq_refl (or_introl eq_refl))).
    reflexivity.
  - apply (proj2 (proj1 (proj2 (backspace_removes_last_value
                    (Demo.state [Demo.plain "a"; Demo.plain "b"])
                    [Demo.plain "a"] (Demo.plain "b") "Delete"
                    eq_refl (or_intror eq_refl))) eq_refl)).
    simpl. repeat constructor; simpl; intuition discriminate.
Defined.

(** C6 as it is stated fails on a selection that holds a value twice:
    when the host hands in [a; b; a], Backspace leaves [b], not
    [a; b]. *)
Lemma backspace_removes_duplicates :
  selected (initialState Demo.repeated)
  = [Demo.plain "a"; Demo.plain "b"; Demo.plain "a"]
  /\ selected (fst (handleKeyDown (Some "") "Backspace"
                      (initialState Demo.repeated)))
     = [Demo.plain "b"]
  /\ removelast (selected (initialState Demo.repeated))
     = [Demo.plain "a"; Demo.plain "b"].
Proof. repeat split. Qed.

Lemma filter_twice {A : Type} (f g : A -> bool) (l : list A) :
  filter g (filter f l) = filter (fun a => f a && g a) l.
Proof.
  induction l as [|a l IH]; simpl; [reflexivity|].
  destruct (f a); simpl; [destruct (g a)|]; now rewrite IH.
Qed.

(** C7. The candidate list is the pool restricted to the options no
    selected entry has the value of (compared as they are) and, when no
    async search is configured, whose value contains the query, both in
    lower case; with an async search the query does not restrict it.
    The candidates come in the order of the pool, each as the value and
    label of its option. *)
Theorem selectables_are_the_candidates (p : Props) (st : State) :
  (exists kept,
      Kept (Candidate p st) (options st) kept
      /\ selectables p st
         = map (fun o => mkOption (value o) (label o) None None) kept)
  /\ (forall c, In c (selectables p st) <->
        exists o, In o (options st) /\ Candidate p st o
                  /\ c = mkOption (value o) (label o) None None).
Proof.
  assert (K : Kept (Candidate p st) (options st)
                (filter
                   (fun option =>
                      includes (toLowerCase (value option))
                        (toLowerCase
                           (match onSearch p with
                            | Some _ => ""
                            | None => debouncedSearchTerm st
                            end)))
                   (filter
                      (fun val =>
                         match find (fun p => value p =? value val) (selected st) with
                         | Some _ => false
                         | None => true
                         end)
                      (options st)))).
  { rewrite filter_twice. apply Kept_filter. intros o _.
    unfold Candidate. rewrite andb_true_iff, <- find_none_iff.
    destruct (onSearch p) as [search|]; simpl.
    - rewrite includes_empty.
      destruct (find _ (selected st)); split; intros [H1 H2];
        try discriminate; (split; [reflexivity|]); auto; discriminate.
    - rewrite includes_spec.
      destruct (find _ (selected st)); split; intros [H1 H2];
        try discriminate; (split; [reflexivity|]); auto. }
  split.
  - eexists. split; [exact K | reflexivity].
  - intros c. unfold selectables, removePickedOption. rewrite in_map_iff.
    split.
    + intros [o [<- Ho]]. apply (Kept_In _ _ _ K) in Ho.
      exists o. tauto.
    + intros [o [Ho [Hc ->]]]. exists o. split; [reflexivity|].
      apply (Kept_In _ _ _ K). tauto.
Qed.

(** The example of the specification for the candidate list, and the
    effect of a query on a pool filtered by the widget. *)
Example selectables_example :
  selectables (Demo.props 3)
    (mkState [Demo.plain "x"] [Demo.plain "x"; Demo.plain "y"] "" "" false true)
  = [Demo.plain "y"]
  /\ selectables (Demo.props 3)
       (mkState [] [Demo.plain "x"; Demo.plain "Yak"; Demo.plain "y"] "yA" "yA" false true)
     = [Demo.plain "Yak"].
Proof. split; reflexivity. Qed.

(** C10. A candidate has a value and a label and neither flag; so has
    every item of the rendered list, whose [disabled] attribute is
    absent, and so has the entry that selecting such an item adds. *)
Theorem candidates_carry_no_flags (p : Props) (st : State) :
  (forall options picked term c,
      In c (removePickedOption options picked term) ->
      disable c = None /\ fixed c = None)
  /\ (forall virtualOptions items it,
        CommandGroupContent (selectables p st) virtualOptions = Some items ->
        In it items ->
        item_disabled it = None
        /\ disable (item_option it) = None /\ fixed (item_option it) = None
        /\ forall s, In s (selected (fst (onSelect p (item_option it) st))) ->
                     In s (selected st) \/ (disable s = None /\ fixed s = None)).
Proof.
  split; [apply removePickedOption_flags|].
  intros virtualOptions items it Hitems Hit.
  destruct (CommandGroupContent_items _ _ _ Hitems it Hit) as [Hin [_ Hd]].
  apply removePickedOption_flags in Hin. destruct Hin as [Hdis Hfix].
  rewrite Hd. repeat split; try assumption.
  intros s. unfold onSelect.
  destruct (maxSelected p <=? _)%Z; simpl; [now left|].
  rewrite in_app_iff. simpl. intros [H | [<- | []]]; [now left | right; now split].
Qed.

Lemma candidates_carry_no_flags_witness :
  item_disabled (mkCommandItem "y" None (mkOption "y" "why" None None)) = None
  /\ CommandGroupContent (selectables (Demo.props 3) (Demo.state [Demo.plain "x"])) [0]
     = Some [mkCommandItem "y" None (mkOption "y" "why" None None)].
Proof.
  split; [|reflexivity].
  apply (proj2 (candidates_carry_no_flags (Demo.props 3) (Demo.state [Demo.plain "x"]))
               [0] [mkCommandItem "y" None (mkOption "y" "why" None None)]
               (mkCommandItem "y" None (mkOption "y" "why" None None))
               eq_refl (or_introl eq_refl)).
Defined.

(** [doSearch] on a promise that is fulfilled: the pool is replaced and
    the loading flag is back to [false]. *)
Lemma doSearch_fulfilled (p : Props) (st : State)
    (search : string -> Settled (list Option)) (res : list Option) :
  onSearch p = Some search ->
  search (debouncedSearchTerm st) = Fulfilled res ->
  doSearch p st = (setIsLoading false (setOptions res (setIsLoading true st)), Normal).
Proof. intros Hs Hr. unfold doSearch. now rewrite Hs, Hr. Qed.

(** [doSearch] on a promise that rejects: the function throws at the
    [await], after [setIsLoading(true)] and before [setIsLoading(false)]. *)
Lemma doSearch_rejected (p : Props) (st : State)
    (search : string -> Settled (list Option)) (reason : string) :
  onSearch p = Some search ->
  search (debouncedSearchTerm st) = Rejected reason ->
  doSearch p st = (setIsLoading true st, Throw reason)
  /\ isLoading (fst (doSearch p st)) = true.
Proof. intros Hs Hr. unfold doSearch. rewrite Hs, Hr. now split. Qed.

(** C4 does not hold of the code: with an [onSearch] whose promise
    rejects, the search started by the query [ab] ends with [isLoading]
    still [true] and the rejection unhandled. *)
Theorem exec_rejection_keeps_loading :
  exec Demo.asyncProps Demo.typing
  = (setIsLoading true Demo.typing, Throw "offline")
  /\ isLoading (fst (exec Demo.asyncProps Demo.typing)) = true
  /\ isLoading Demo.typing = false.
Proof. repeat split. Qed.

End SelectorTheorems.

(** ** Properties of the schema walker *)

Module WalkerTheorems.

Import Walker Spec Facts.

(** [handleIfZodNumber] writes only into a number, or into the number
    right under a wrapper. *)
Lemma handleIfZodNumber_not_number (item : ZodTypeAny) :
  typeName (unwrap item) <> "ZodNumber" -> handleIfZodNumber item = item.
Proof.
  intros H. unfold handleIfZodNumber.
  destruct item as [d|d c|d|d v|d t|d s|d i|d i|d i|d s|d k]; simpl in *;
    try reflexivity; try congruence.
  1-3: destruct i as [ | | | | | | | | | |d' k]; simpl in *;
       try reflexivity; try congruence; now destruct k.
  now destruct k.
Qed.

Lemma handleIfZodNumber_array (item : ZodTypeAny) (d : option string)
    (type : ZodTypeAny) :
  unwrap item = ZodArray d type -> handleIfZodNumber item = item.
Proof.
  intros H. apply handleIfZodNumber_not_number. rewrite H. discriminate.
Qed.

(** C9. Following [innerType] to the end is idempotent, and the node it
    ends on has no [innerType]: it is no optional, nullable or default
    wrapper. *)
Theorem unwrap_idempotent (x : ZodTypeAny) :
  unwrap (unwrap x) = unwrap x
  /\ innerTypeOf (unwrap x) = None
  /\ typeName (unwrap x) <> "ZodOptional"
  /\ typeName (unwrap x) <> "ZodDefault".
Proof.
  induction x as [d|d c|d|d v|d t _|d s|d i IH|d i IH|d i IH|d s _|d k];
    simpl; try exact IH; repeat split; try discriminate.
  all: destruct k; discriminate.
Qed.

(** Forcing coercion neither makes nor hides an array under the
    wrappers. *)
Lemma unwrap_coerced_array (item : ZodTypeAny) (d : option string)
    (type : ZodTypeAny) :
  unwrap (handleIfZodNumber item) = ZodArray d type ->
  unwrap item = ZodArray d type.
Proof.
  unfold handleIfZodNumber.
  destruct item as [d0|d0 c|d0|d0 v|d0 t|d0 s|d0 i|d0 i|d0 i|d0 s|d0 k];
    simpl; try (intros H; exact H); try discriminate.
  1-3: destruct i as [ | | | | | | | | | |d' k]; simpl;
       try (intros H; exact H); try discriminate; now destruct k.
  now destruct k.
Qed.

Lemma not_array_answers (item : ZodTypeAny) :
  (forall d type, unwrap item <> ZodArray d type) ->
  isPrimitiveArray (isZodPrimitiveArray (handleIfZodNumber item))
  || isEnumOfPrimitives (isZodPrimitiveArray (handleIfZodNumber item)) = false.
Proof.
  intros H. unfold isZodPrimitiveArray.
  destruct (unwrap (handleIfZodNumber item)) eqn:E; try reflexivity.
  apply unwrap_coerced_array in E. now apply H in E.
Qed.

Section WalkFacts.

Context {imports : Imports}.

Variable fieldConfig : option FieldConfig.
Variable path : list string.
Variable dependencies : list Dependency.
Variable watch : Watch.

Lemma renderKey_hidden (name : string) (item : ZodTypeAny) :
  isHidden (resolveDependencies dependencies name watch) = true ->
  renderKey fieldConfig path dependencies watch name item
  = mkKeyResult (handleIfZodNumber item) [] None.
Proof. intros H. unfold renderKey. now rewrite H. Qed.

Lemma renderKey_visible (name : string) (item : ZodTypeAny) :
  isHidden (resolveDependencies dependencies name watch) = false ->
  exists e,
    element (renderKey fieldConfig path dependencies watch name item) = Some e.
Proof.
  intros H. unfold renderKey. rewrite H.
  destruct (getBaseType _ =? "ZodObject"); [eexists; reflexivity|].
  destruct (getBaseType _ =? "ZodArray"); [|eexists; reflexivity].
  destruct (isPrimitiveArray _ || isEnumOfPrimitives _); eexists; reflexivity.
Qed.

Lemma rendersField_or_dropped (e : option Element) :
  isElement e = true -> rendersField e = negb (isDropped e).
Proof.
  destruct e as [[v k n c | k n i f p | n data]|]; simpl; try reflexivity;
    try discriminate.
  intros _. now destruct (InputComponent data).
Qed.

Lemma walk_counts (shape : Shape) :
  List.length (children (walk fieldConfig path dependencies watch shape))
  = List.length shape
  /\ List.length (filter isElement
                    (children (walk fieldConfig path dependencies watch shape)))
     = List.length (notHidden dependencies watch shape)
  /\ List.length (filter rendersField
                    (children (walk fieldConfig path dependencies watch shape)))
     + List.length (filter isDropped
                      (children (walk fieldConfig path dependencies watch shape)))
     = List.length (notHidden dependencies watch shape).
Proof.
  unfold walk, notHidden; simpl.
  induction shape as [|[name item] shape IH]; simpl; [auto|].
  destruct IH as [IH1 [IH2 IH3]].
  destruct (isHidden (resolveDependencies dependencies name watch)) eqn:Hh; simpl.
  - rewrite (renderKey_hidden _ _ Hh). simpl. auto.
  - destruct (renderKey_visible name item Hh) as [e He]. rewrite He.
    pose proof (rendersField_or_dropped (Some e) eq_refl) as Hp.
    cbn [isElement]. rewrite Hp.
    destruct (isDropped (Some e)); simpl; repeat split; lia.
Qed.

(** [AutoFormObject] walks the shape of the base schema, and renders
    nothing when the schema or its shape is missing. *)
Lemma AutoFormObject_walks_shape (schema : ZodTypeAny) (d : option string)
    (shape : Shape) :
  getBaseSchema schema = Some (ZodObject d shape) ->
  AutoFormObject (Some schema) fieldConfig path dependencies watch
  = Some (walk fieldConfig path dependencies watch shape).
Proof. intros H. unfold AutoFormObject. now rewrite H. Qed.

Lemma AutoFormObject_missing_schema :
  AutoFormObject None fieldConfig path dependencies watch = None
  /\ (forall schema, getBaseSchema schema = None ->
        AutoFormObject (Some schema) fieldConfig path dependencies watch = None).
Proof. split; [reflexivity|]. intros schema H. unfold AutoFormObject. now rewrite H. Qed.

(** C2, as the code has it. The walker returns one child per key,
    [null] exactly for the hidden keys, so the elements it emits are as
    many as the keys no dependency hides; an emitted element puts a
    field on the page unless it is a form field whose widget is
    undefined, which renders the empty fragment. *)
Theorem walk_one_element_per_visible_key (shape : Shape) :
  List.length (filter isElement
                 (children (walk fieldConfig path dependencies watch shape)))
  = List.length (notHidden dependencies watch shape)
  /\ List.length (filter rendersField
                    (children (walk fieldConfig path dependencies watch shape)))
     = List.length (notHidden dependencies watch shape)
       - List.length (filter isDropped
                        (children (walk fieldConfig path dependencies watch shape)))
  /\ (forall name item,
        element (renderKey fieldConfig path dependencies watch name item) = None
        <-> isHidden (resolveDependencies dependencies name watch) = true).
Proof.
  destruct (walk_counts shape) as [_ [H2 H3]]. repeat split.
  - exact H2.
  - lia.
  - intros H. destruct (isHidden _) eqn:Hh; [reflexivity|].
    destruct (renderKey_visible name item Hh) as [e He]. congruence.
  - intros Hh. now rewrite (renderKey_hidden _ _ Hh).
Qed.

(** C3, as the code has it. For a key that a dependency hides the
    callback returns [null] and reads no entry of [fieldConfig], whatever
    [fieldConfig] is; the node of the key is the one [handleIfZodNumber]
    left, which ran before the dependencies were resolved: a node that
    does not unwrap to a number is untouched. *)
Theorem hidden_key_is_skipped (name : string) (item : ZodTypeAny) :
  isHidden (resolveDependencies dependencies name watch) = true ->
  element (renderKey fieldConfig path dependencies watch name item) = None
  /\ lookups (renderKey fieldConfig path dependencies watch name item) = []
  /\ after (renderKey fieldConfig path dependencies watch name item)
     = handleIfZodNumber item
  /\ (typeName (unwrap item) <> "ZodNumber" ->
      after (renderKey fieldConfig path dependencies watch name item) = item)
  /\ (forall otherConfig,
        renderKey otherConfig path dependencies watch name item
        = renderKey fieldConfig path dependencies watch name item).
Proof.
  intros Hh. rewrite (renderKey_hidden _ _ Hh). simpl. repeat split.
  - now apply handleIfZodNumber_not_number.
  - intros otherConfig. unfold renderKey. now rewrite Hh.
Qed.

(** The array branch on a key the walker does not hide, classified as
    an array, whose node unwraps to an array of [type]: when [type] is a string, a
    number, a boolean or an enum, the walker emits one form field for
    the key, of widget [selectmultiinput], whose [creatable] property is
    set exactly when [type] is no enum, and whose schema node is [type]
    unless a dependency overrides the options; for any other [type] it
    emits the repeatable sub-form [AutoFormArray]. *)
Theorem array_key_branch (name : string) (item : ZodTypeAny)
    (d : option string) (type : ZodTypeAny) :
  isHidden (resolveDependencies dependencies name watch) = false ->
  getBaseType item = "ZodArray" ->
  unwrap item = ZodArray d type ->
  if isPrimitive type || isEnum type then
    exists data,
      element (renderKey fieldConfig path dependencies watch name item)
      = Some (FormField (String.concat "." (path ++ [name])) data)
      /\ fieldType (field_fieldConfigItem data)
         = Some (FieldTypeKey "selectmultiinput")
      /\ option_map creatable (inputProps (field_fieldConfigItem data))
         = Some (Some (negb (isEnum type)))
      /\ InputComponent data = INPUT_COMPONENTS "selectmultiinput"
      /\ (overrideOptions (resolveDependencies dependencies name watch) = None ->
          field_zodItem data = type)
  else
    element (renderKey fieldConfig path dependencies watch name item)
    = Some (AutoFormArray (String.concat "." (path ++ [name])) name item
              (orEmpty (lookupConfig fieldConfig name)) (path ++ [name])).
Proof.
  intros Hh Hbase Hun. unfold renderKey.
  rewrite (handleIfZodNumber_array _ _ _ Hun), Hh, Hbase. simpl.
  unfold isZodPrimitiveArray. rewrite Hun.
  destruct type as [d'|d' c|d'|d' v|d' t|d' s|d' i|d' i|d' i|d' s|d' k]; simpl;
    try reflexivity;
    (eexists; split; [reflexivity|]; simpl; repeat split;
     intros Ho; now rewrite Ho).
Qed.

Lemma array_key_not_opened (name : string) (item : ZodTypeAny) :
  isHidden (resolveDependencies dependencies name watch) = false ->
  getBaseType (handleIfZodNumber item) = "ZodArray" ->
  (forall d type, unwrap item <> ZodArray d type) ->
  element (renderKey fieldConfig path dependencies watch name item)
  = Some (AutoFormArray (String.concat "." (path ++ [name])) name
            (handleIfZodNumber item)
            (orEmpty (lookupConfig fieldConfig name)) (path ++ [name])).
Proof.
  intros Hh Hbase Hun. unfold renderKey. rewrite Hh, Hbase. simpl.
  now rewrite (not_array_answers _ Hun).
Qed.

(** C8, as the code has it. For a key the walker classifies as an
    array: if a dependency hides the key, nothing is emitted.
    Otherwise, if the node of the key unwraps, through its [innerType]
    wrappers, to an array whose element type is a string, a number, a
    boolean or an enum, the walker emits one form field for the key, of
    widget [selectmultiinput], whose [creatable] property is set
    exactly when the element type is no enum; for any other element
    type, and when the node does not unwrap to an array at all, it
    emits the repeatable sub-form [AutoFormArray]. *)
Theorem array_key_element (name : string) (item : ZodTypeAny) :
  getBaseType (handleIfZodNumber item) = "ZodArray" ->
  if isHidden (resolveDependencies dependencies name watch) then
    element (renderKey fieldConfig path dependencies watch name item) = None
  else
    match unwrap item with
    | ZodArray _ type =>
      if isPrimitive type || isEnum type then
        exists data,
          element (renderKey fieldConfig path dependencies watch name item)
          = Some (FormField (String.concat "." (path ++ [name])) data)
          /\ fieldType (field_fieldConfigItem data)
             = Some (FieldTypeKey "selectmultiinput")
          /\ option_map creatable (inputProps (field_fieldConfigItem data))
             = Some (Some (negb (isEnum type)))
          /\ InputComponent data = INPUT_COMPONENTS "selectmultiinput"
          /\ (overrideOptions (resolveDependencies dependencies name watch) = None ->
              field_zodItem data = type)
      else
        element (renderKey fieldConfig path dependencies watch name item)
        = Some (AutoFormArray (String.concat "." (path ++ [name])) name
                  (handleIfZodNumber item)
                  (orEmpty (lookupConfig fieldConfig name)) (path ++ [name]))
    | _ =>
      element (renderKey fieldConfig path dependencies watch name item)
      = Some (AutoFormArray (String.concat "." (path ++ [name])) name
                (handleIfZodNumber item)
                (orEmpty (lookupConfig fieldConfig name)) (path ++ [name]))
    end.
Proof.
  intros Hbase.
  destruct (isHidden (resolveDependencies dependencies name watch)) eqn:Hh.
  - now rewrite (renderKey_hidden _ _ Hh).
  - destruct (unwrap item) as [d|d c|d|d v|d t|d s|d i|d i|d i|d s|d k] eqn:Hun;
      try (apply array_key_not_opened; [exact Hh | exact Hbase |];
           intros d' t' E; rewrite Hun in E; discriminate E).
    pose proof (handleIfZodNumber_array _ _ _ Hun) as Hid.
    rewrite Hid in Hbase.
    pose proof (array_key_branch name item d t Hh Hbase Hun) as B.
    destruct (isPrimitive t || isEnum t); [exact B | now rewrite Hid].
Qed.

End WalkFacts.

(** With the base schema of the specification, a node whose base schema
    is an array is classified as an array, and the loop of
    [isZodPrimitiveArray] ends on that same array. *)
Lemma base_array_is_unwrapped (item : ZodTypeAny) (d : option string)
    (type : ZodTypeAny) :
  WalkerDemo.getBaseSchema item = ZodArray d type ->
  WalkerDemo.getBaseType item = "ZodArray" /\ unwrap item = ZodArray d type.
Proof.
  unfold WalkerDemo.getBaseType.
  induction item as [d0|d0 c|d0|d0 v|d0 t _|d0 s|d0 i IH|d0 i IH|d0 i IH|d0 s _|d0 k];
    simpl; intros H; try discriminate; try (now apply IH).
  injection H as -> ->. now split.
Qed.

(** The shape [person] under the rule that hides [age]: three keys are
    visible, and the node of the hidden [age] has been coerced. *)
Example walk_person :
  map isElement
      (children (walk (imports := WalkerDemo.imports) None [] WalkerDemo.hideAge
                      WalkerDemo.answers WalkerDemo.person))
  = [true; false; true; true]
  /\ shapeAfter (walk (imports := WalkerDemo.imports) None [] WalkerDemo.hideAge
                      WalkerDemo.answers WalkerDemo.person)
     = [("firstName", ZodString None);
        ("age", ZodNumber None true);
        ("tags", ZodDefault None (ZodArray None (ZodString None)));
        ("roles", ZodArray None (ZodEnum None ["admin"; "user"]))].
Proof. split; reflexivity. Qed.

(** C2 as it is stated fails when a widget is undefined: of the three
    visible keys of [person], [firstName] asks for a widget the table
    lacks and renders nothing. *)
Lemma undefined_widget_renders_nothing :
  List.length (notHidden (imports := WalkerDemo.imports) WalkerDemo.hideAge
                 WalkerDemo.answers WalkerDemo.person) = 3
  /\ List.length
       (filter (rendersField (imports := WalkerDemo.imports))
          (children (walk (imports := WalkerDemo.imports)
                       (Some WalkerDemo.ghostConfig) [] WalkerDemo.hideAge
                       WalkerDemo.answers WalkerDemo.person))) = 2.
Proof. split; reflexivity. Qed.

(** C3 as it is stated fails on a hidden number: the walker has set
    [coerce] on the node of the hidden key [age]. *)
Lemma hidden_number_is_coerced :
  isHidden (resolveDependencies (Imports := WalkerDemo.imports)
              WalkerDemo.hideAge "age" WalkerDemo.answers) = true
  /\ after (renderKey (imports := WalkerDemo.imports) None []
              WalkerDemo.hideAge WalkerDemo.answers "age" (ZodNumber None false))
     = ZodNumber None true.
Proof. split; reflexivity. Qed.

Lemma hidden_key_is_skipped_witness :
  element (renderKey (imports := WalkerDemo.imports) (Some WalkerDemo.ghostConfig) []
             WalkerDemo.hideAge WalkerDemo.answers "age" (ZodNumber None false))
  = None.
Proof.
  apply (hidden_key_is_skipped (imports := WalkerDemo.imports)
           (Some WalkerDemo.ghostConfig) [] WalkerDemo.hideAge WalkerDemo.answers
           "age" (ZodNumber None false)).
  reflexivity.
Defined.

Lemma array_key_branch_witness :
  exists data,
    element (renderKey (imports := WalkerDemo.imports) None []
               WalkerDemo.hideAge WalkerDemo.answers "tags"
               (ZodDefault None (ZodArray None (ZodString None))))
    = Some (FormField "tags" data)
    /\ fieldType (field_fieldConfigItem data)
       = Some (FieldTypeKey "selectmultiinput")
    /\ option_map creatable (inputProps (field_fieldConfigItem data))
       = Some (Some true)
    /\ InputComponent (imports := WalkerDemo.imports) data
       = Some "AutoFormEnumMultiInput"
    /\ (overrideOptions (resolveDependencies (Imports := WalkerDemo.imports)
                           WalkerDemo.hideAge "tags" WalkerDemo.answers) = None ->
        field_zodItem data = ZodString None).
Proof.
  exact (array_key_branch (imports := WalkerDemo.imports) None []
           WalkerDemo.hideAge WalkerDemo.answers "tags"
           (ZodDefault None (ZodArray None (ZodString None)))
           None (ZodString None) eq_refl eq_refl eq_refl).
Defined.

(** C8 as it is stated fails on an array key that a dependency hides:
    [tags] is a default-wrapped array of strings, and the walker emits
    nothing for it. *)
Lemma hidden_array_key_emits_nothing :
  getBaseType (Imports := WalkerDemo.imports)
    (ZodDefault None (ZodArray None (ZodString None))) = "ZodArray"
  /\ unwrap (ZodDefault None (ZodArray None (ZodString None)))
     = ZodArray None (ZodString None)
  /\ isHidden (resolveDependencies (Imports := WalkerDemo.imports)
                 WalkerDemo.hideTags "tags" WalkerDemo.answers) = true
  /\ element (renderKey (imports := WalkerDemo.imports) None []
                WalkerDemo.hideTags WalkerDemo.answers "tags"
                (ZodDefault None (ZodArray None (ZodString None))))
     = None.
Proof. repeat split. Qed.

Lemma array_key_element_witness :
  (exists data,
      element (renderKey (imports := WalkerDemo.imports) None []
                 WalkerDemo.hideAge WalkerDemo.answers "roles"
                 (ZodArray None (ZodEnum None ["admin"; "user"])))
      = Some (FormField "roles" data)
      /\ fieldType (field_fieldConfigItem data)
         = Some (FieldTypeKey "selectmultiinput")
      /\ option_map creatable (inputProps (field_fieldConfigItem data))
         = Some (Some false)
      /\ InputComponent (imports := WalkerDemo.imports) data
         = Some "AutoFormEnumMultiInput"
      /\ (overrideOptions (resolveDependencies (Imports := WalkerDemo.imports)
                             WalkerDemo.hideAge "roles" WalkerDemo.answers) = None ->
          field_zodItem data = ZodEnum None ["admin"; "user"]))
  /\ element (renderKey (imports := WalkerDemo.imports) None []
                WalkerDemo.hideTags WalkerDemo.answers "tags"
                (ZodDefault None (ZodArray None (ZodString None))))
     = None.
Proof.
  split.
  - exact (array_key_element (imports := WalkerDemo.imports) None []
             WalkerDemo.hideAge WalkerDemo.answers "roles"
             (ZodArray None (ZodEnum None ["admin"; "user"])) eq_refl).
  - exact (array_key_element (imports := WalkerDemo.imports) None []
             WalkerDemo.hideTags WalkerDemo.answers "tags"
             (ZodDefault None (ZodArray None (ZodString None))) eq_refl).
Defined.

End WalkerTheorems.


(** ** Further properties of the multi-select widget *)

Module SelectorExtras.

Import JsString MultipleSelector SelectorView Spec Facts.

Lemma NoDup_snoc {A : Type} (l : list A) (x : A) :
  NoDup l -> ~ In x l -> NoDup (l ++ [x]).
Proof.
  induction l as [|a l IH]; simpl; intros Hl Hx.
  - constructor; [intros []|constructor].
  - inversion Hl as [|? ? Ha Hl']; subst. constructor.
    + rewrite in_app_iff. simpl. intros [H | [H | []]]; [now apply Ha|].
      apply Hx. now left.
    + apply IH; [assumption|]. intros H. apply Hx. now right.
Qed.

Lemma NoDup_map_filter {A B : Type} (g : A -> B) (f : A -> bool) (l : list A) :
  NoDup (map g l) -> NoDup (map g (filter f l)).
Proof.
  induction l as [|a l IH]; simpl; intros H; [constructor|].
  inversion H as [|? ? Ha Hl]; subst.
  destruct (f a); simpl; [|now apply IH].
  constructor; [|now apply IH].
  intros Hin. apply Ha. apply in_map_iff in Hin. destruct Hin as [x [Hx Hin]].
  apply filter_In in Hin. apply in_map_iff. exists x. tauto.
Qed.

Lemma existsb_false {A : Type} (f : A -> bool) (l : list A) :
  existsb f l = false -> forall x, In x l -> f x = false.
Proof.
  intros H x Hx. destruct (f x) eqn:E; [|reflexivity].
  assert (existsb f l = true) by (apply existsb_exists; now exists x).
  congruence.
Qed.

Lemma find_false {A : Type} (f : A -> bool) (l : list A) :
  find f l = None -> forall x, In x l -> f x = false.
Proof. intros H x Hx. exact (find_none f l H x Hx). Qed.

Lemma length_positive (s : string) :
  (0 <? String.length s)%nat = true -> s <> "".
Proof. destruct s; simpl; [discriminate | intros _; discriminate]. Qed.

Lemma filter_length_all {A : Type} (f : A -> bool) (l : list A) :
  List.length (filter f l) = List.length l -> filter f l = l.
Proof.
  induction l as [|a l IH]; simpl; [reflexivity|].
  pose proof (filter_length_le f l) as Hle.
  destruct (f a); simpl; intros H.
  - f_equal. apply IH. lia.
  - lia.
Qed.

(** X1. Removing an option removes every selected entry that has its
    value, fixed or not, and keeps the others; doing it again changes
    nothing. *)
Theorem handleUnselect_removes_value (o : Option) (st : State) :
  (forall s, In s (selected (fst (handleUnselect o st)))
             <-> In s (selected st) /\ value s <> value o)
  /\ fst (handleUnselect o (fst (handleUnselect o st)))
     = fst (handleUnselect o st).
Proof.
  unfold handleUnselect; simpl. split.
  - intros s. rewrite filter_In, negb_true_iff. now rewrite String.eqb_neq.
  - unfold setSelected; simpl. f_equal.
    apply filter_all. intros s Hs. now apply filter_In in Hs.
Qed.

(** X2. Selecting a candidate of the rendered list keeps the selected
    values pairwise distinct. *)
Theorem onSelect_keeps_values_distinct (p : Props) (st : State) (o : Option) :
  NoDup (map value (selected st)) ->
  In o (selectables p st) ->
  NoDup (map value (selected (fst (onSelect p o st)))).
Proof.
  intros Hnd Ho. unfold onSelect.
  destruct (maxSelected p <=? _)%Z; simpl; [assumption|].
  rewrite map_app. simpl. apply NoDup_snoc; [assumption|].
  unfold selectables, removePickedOption in Ho.
  apply in_map_iff in Ho. destruct Ho as [x [<- Hx]]. simpl.
  apply filter_In in Hx. destruct Hx as [Hx _].
  apply filter_In in Hx. destruct Hx as [_ Hx].
  destruct (find _ (selected st)) eqn:E; [discriminate|].
  intros Hin. apply in_map_iff in Hin. destruct Hin as [s [Hs Hin]].
  apply (find_false _ _ E) in Hin. rewrite Hs, String.eqb_refl in Hin.
  discriminate.
Qed.

Lemma onSelect_keeps_values_distinct_witness :
  NoDup (map value
           (selected (fst (onSelect (Demo.props 3) (mkOption "y" "why" None None)
                             (Demo.state [Demo.plain "x"]))))).
Proof.
  apply (onSelect_keeps_values_distinct (Demo.props 3) (Demo.state [Demo.plain "x"])
           (mkOption "y" "why" None None)).
  - simpl. repeat constructor. intros [].
  - simpl. now left.
Defined.

(** X3. When the create item is shown, the widget is creatable, the
    item carries the text of the input, and no option of the pool and no
    selected entry has that text as its value, letter case aside; when
    the pool is filtered by the widget the text is not empty. *)
Theorem CreatableItem_shown (p : Props) (st : State) (v : string) :
  CreatableItem p st = Some v ->
  creatable p = true
  /\ v = inputValue st
  /\ (forall o, In o (options st) -> toLowerCase (value o) <> toLowerCase v)
  /\ (forall s, In s (selected st) -> toLowerCase (value s) <> toLowerCase v)
  /\ (onSearch p = None -> v <> "").
Proof.
  unfold CreatableItem. destruct (creatable p); simpl; [|discriminate].
  destruct (isOptionsExist _ _) eqn:Eo; simpl; [discriminate|].
  destruct (find _ (selected st)) eqn:Es; [discriminate|].
  intros H.
  assert (Hv : v = inputValue st).
  { destruct (onSearch p); [destruct (_ && _)|destruct (_ <? _)%nat];
      congruence. }
  subst v. repeat split.
  - intros o Ho E. unfold isOptionsExist in Eo.
    apply (existsb_false _ _ Eo) in Ho. simpl in Ho.
    rewrite E, String.eqb_refl in Ho. discriminate.
  - intros s Hs E. apply (find_false _ _ Es) in Hs.
    rewrite E, String.eqb_refl in Hs. discriminate.
  - intros Hn. rewrite Hn in H.
    destruct (0 <? _)%nat eqn:El; [|discriminate].
    now apply length_positive.
Qed.

Lemma CreatableItem_shown_witness :
  creatable (Demo.props 3) = true.
Proof.
  apply (CreatableItem_shown (Demo.props 3)
           (mkState [] [Demo.plain "x"] "new" "new" false true) "new").
  reflexivity.
Defined.

(** X4. The create handler appends the value it is handed, which is
    for the command list to choose.  When that value equals the text
    the create item offered, letter case aside, creating keeps the
    selected values pairwise distinct, letter case aside. *)
Theorem create_keeps_values_distinct
    (p : Props) (st : State) (v handed : string) :
  CreatableItem p st = Some v ->
  toLowerCase handed = toLowerCase v ->
  NoDup (map (fun s => toLowerCase (value s)) (selected st)) ->
  NoDup (map (fun s => toLowerCase (value s))
             (selected (fst (creatableOnSelect p handed st)))).
Proof.
  intros Hc Hsame Hnd. unfold creatableOnSelect.
  destruct (maxSelected p <=? _)%Z; simpl; [assumption|].
  rewrite map_app. simpl. apply NoDup_snoc; [assumption|].
  unfold CreatableItem in Hc. destruct (creatable p); simpl in Hc; [|discriminate].
  destruct (isOptionsExist _ _); simpl in Hc; [discriminate|].
  destruct (find _ (selected st)) eqn:Es; [discriminate|].
  assert (Hv : v = inputValue st).
  { destruct (onSearch p); [destruct (_ && _)|destruct (_ <? _)%nat];
      congruence. }
  subst v. rewrite Hsame.
  intros Hin. apply in_map_iff in Hin. destruct Hin as [s [E Hs]].
  apply (find_false _ _ Es) in Hs. rewrite E, String.eqb_refl in Hs.
  discriminate.
Qed.

Lemma create_keeps_values_distinct_witness :
  NoDup (map (fun s => toLowerCase (value s))
           (selected (fst (creatableOnSelect (Demo.props 3) "new"
                             (mkState [Demo.plain "a"] [Demo.plain "x"]
                                      "New" "New" false true))))).
Proof.
  apply (create_keeps_values_distinct (Demo.props 3)
           (mkState [Demo.plain "a"] [Demo.plain "x"] "New" "New" false true)
           "New" "new").
  - reflexivity.
  - reflexivity.
  - simpl. repeat constructor. intros [].
Defined.

(** The condition on the value handed over is needed: with [new]
    selected and [new] followed by a space typed, the create item is
    offered, and a handler that is handed the trimmed text adds [new] a
    second time. *)
Example create_after_trim :
  CreatableItem (Demo.props 3)
    (mkState [Demo.plain "new"] [Demo.plain "x"] "new " "new " false true)
  = Some "new "
  /\ selected (fst (creatableOnSelect (Demo.props 3) "new"
                      (mkState [Demo.plain "new"] [Demo.plain "x"]
                               "new " "new " false true)))
     = [Demo.plain "new"; Demo.plain "new"].
Proof. split; reflexivity. Qed.

Lemma handleKeyDown_state (input : option string) (key : string) (st : State) :
  fst (handleKeyDown input key st) = st
  \/ exists o, fst (handleKeyDown input key st) = fst (handleUnselect o st).
Proof.
  unfold handleKeyDown. destruct input as [q|]; [|now left].
  destruct ((key =? "Delete") || (key =? "Backspace")).
  - destruct ((q =? "") && _).
    + destruct (nth_error _ _) as [o|].
      * destruct (negb (truthy (fixed o))).
        -- right. exists o. destruct (handleUnselect o st) as [st1 c1].
           now destruct (key =? "Escape").
        -- left. now destruct (key =? "Escape").
      * left. now destruct (key =? "Escape").
    + left. now destruct (key =? "Escape").
  - left. now destruct (key =? "Escape").
Qed.

(** X5. Nothing that removes entries can make two selected entries
    share a value: a key press, clear-all and the remove button keep the
    selected values pairwise distinct. *)
Theorem removing_keeps_values_distinct
    (st : State) (input : option string) (key : string) (o : Option) :
  NoDup (map value (selected st)) ->
  NoDup (map value (selected (fst (handleKeyDown input key st))))
  /\ NoDup (map value (selected (fst (clearAll st))))
  /\ NoDup (map value (selected (fst (handleUnselect o st)))).
Proof.
  intros H. repeat split.
  - destruct (handleKeyDown_state input key st) as [-> | [x ->]];
      [assumption | now apply NoDup_map_filter].
  - now apply NoDup_map_filter.
  - now apply NoDup_map_filter.
Qed.

Lemma removing_keeps_values_distinct_witness :
  NoDup (map value
           (selected (fst (handleKeyDown (Some "") "Backspace"
                             (Demo.state [Demo.plain "a"; Demo.plain "b"]))))).
Proof.
  apply (removing_keeps_values_distinct
           (Demo.state [Demo.plain "a"; Demo.plain "b"]) (Some "") "Backspace"
           (Demo.plain "a")).
  simpl. repeat constructor; simpl; intuition discriminate.
Defined.

(** X6. Whenever the clear-all button is shown, clicking it removes at
    least one entry; when it is hidden for what the selection holds (no
    entry, or fixed entries only), a click would have changed nothing. *)
Theorem clearAll_button (hideClearAllButton disabled : bool) (st : State) :
  (clearAllHidden hideClearAllButton disabled st = false ->
   (List.length (selected (fst (clearAll st))) < List.length (selected st))%nat)
  /\ (clearAllHidden false false st = true ->
      selected (fst (clearAll st)) = selected st).
Proof.
  unfold clearAllHidden, clearAll; simpl. split.
  - intros H. apply orb_false_iff in H. destruct H as [_ H].
    apply Nat.eqb_neq in H.
    pose proof (filter_length_le (fun s => truthy (fixed s)) (selected st)).
    lia.
  - intros H. apply orb_true_iff in H. destruct H as [H | H].
    + apply Nat.ltb_lt in H. destruct (selected st); [reflexivity|simpl in H; lia].
    + apply Nat.eqb_eq in H. now apply filter_length_all.
Qed.

Lemma clearAll_button_witness :
  (List.length (selected (fst (clearAll
      (Demo.state [Demo.fixedOption "a"; Demo.plain "b"]))))
   < List.length (selected (Demo.state [Demo.fixedOption "a"; Demo.plain "b"])))%nat
  /\ selected (fst (clearAll (Demo.state [Demo.fixedOption "a"])))
     = selected (Demo.state [Demo.fixedOption "a"]).
Proof.
  split.
  - apply (proj1 (clearAll_button false false
                    (Demo.state [Demo.fixedOption "a"; Demo.plain "b"]))).
    reflexivity.
  - apply (proj2 (clearAll_button false false (Demo.state [Demo.fixedOption "a"]))).
    reflexivity.
Defined.

Lemma doSearch_frame (p : Props) (st : State) :
  selected (fst (doSearch p st)) = selected st
  /\ inputValue (fst (doSearch p st)) = inputValue st
  /\ debouncedSearchTerm (fst (doSearch p st)) = debouncedSearchTerm st
  /\ open (fst (doSearch p st)) = open st.
Proof.
  unfold doSearch. destruct (onSearch p) as [search|]; [|now repeat split].
  destruct (search _); now repeat split.
Qed.

Lemma doSearch_throw (p : Props) (st : State) (r : string) :
  snd (doSearch p st) = Throw r -> isLoading (fst (doSearch p st)) = true.
Proof.
  unfold doSearch. destruct (onSearch p) as [search|]; [|discriminate].
  destruct (search _); [discriminate | reflexivity].
Qed.

(** X7. The search effect never touches the selection, the text of the
    input, the debounced query or the open flag; if it ends by throwing,
    it ends with the loading flag set; and it does nothing at all
    without an [onSearch] or while the list is closed. *)
Theorem exec_frame (p : Props) (st : State) :
  selected (fst (exec p st)) = selected st
  /\ inputValue (fst (exec p st)) = inputValue st
  /\ debouncedSearchTerm (fst (exec p st)) = debouncedSearchTerm st
  /\ open (fst (exec p st)) = open st
  /\ (forall r, snd (exec p st) = Throw r -> isLoading (fst (exec p st)) = true)
  /\ (onSearch p = None \/ open st = false -> exec p st = (st, Normal)).
Proof.
  assert (F : forall a b : Async,
             (forall s, selected (fst (a s)) = selected s
                        /\ inputValue (fst (a s)) = inputValue s
                        /\ debouncedSearchTerm (fst (a s)) = debouncedSearchTerm s
                        /\ open (fst (a s)) = open s) ->
             (forall s, selected (fst (b s)) = selected s
                        /\ inputValue (fst (b s)) = inputValue s
                        /\ debouncedSearchTerm (fst (b s)) = debouncedSearchTerm s
                        /\ open (fst (b s)) = open s) ->
             forall s, selected (fst (andThen a b s)) = selected s
                       /\ inputValue (fst (andThen a b s)) = inputValue s
                       /\ debouncedSearchTerm (fst (andThen a b s)) = debouncedSearchTerm s
                       /\ open (fst (andThen a b s)) = open s).
  { intros a b Ha Hb s. unfold andThen. specialize (Ha s).
    destruct (a s) as [s1 [|r]]; simpl in *; [|exact Ha].
    specialize (Hb s1). destruct Ha as [? [? [? ?]]], Hb as [? [? [? ?]]].
    repeat split; congruence. }
  assert (T : forall a b : Async,
             (forall s r, snd (a s) = Throw r -> isLoading (fst (a s)) = true) ->
             (forall s r, snd (b s) = Throw r -> isLoading (fst (b s)) = true) ->
             forall s r, snd (andThen a b s) = Throw r ->
                         isLoading (fst (andThen a b s)) = true).
  { intros a b Ha Hb s r. unfold andThen. specialize (Ha s).
    destruct (a s) as [s1 [|r1]]; simpl in *; [apply Hb | intros _; now apply (Ha r1)]. }
  assert (S : forall s, selected (fst (skip s)) = selected s
                        /\ inputValue (fst (skip s)) = inputValue s
                        /\ debouncedSearchTerm (fst (skip s)) = debouncedSearchTerm s
                        /\ open (fst (skip s)) = open s) by now repeat split.
  assert (E : selected (fst (exec p st)) = selected st
              /\ inputValue (fst (exec p st)) = inputValue st
              /\ debouncedSearchTerm (fst (exec p st)) = debouncedSearchTerm st
              /\ open (fst (exec p st)) = open st).
  { unfold exec. destruct (onSearch p); [|now repeat split].
    destruct (negb (open st)); [now repeat split|].
    apply F; [destruct (triggerSearchOnFocus p) | destruct (0 <? _)%nat];
      try exact S; exact (doSearch_frame p). }
  destruct E as [E1 [E2 [E3 E4]]]. repeat split; try assumption.
  - intros r. unfold exec. destruct (onSearch p); [|discriminate].
    destruct (negb (open st)); [discriminate|].
    apply T; [destruct (triggerSearchOnFocus p) | destruct (0 <? _)%nat];
      try (intros ? ? H; cbv in H; discriminate); exact (doSearch_throw p).
  - intros [H | H]; unfold exec; [now rewrite H|].
    destruct (onSearch p); [|reflexivity]. now rewrite H.
Qed.

Lemma exec_frame_witness :
  isLoading (fst (exec Demo.asyncProps Demo.typing)) = true.
Proof.
  apply (exec_frame Demo.asyncProps Demo.typing) with (r := "offline").
  reflexivity.
Defined.

(** X8. A search the effect runs to the end leaves the fetched options
    as the pool and the loading flag off. *)
Theorem exec_fulfilled (p : Props) (st : State)
    (search : string -> Settled (list Option)) (res : list Option) :
  onSearch p = Some search ->
  open st = true ->
  triggerSearchOnFocus p = true \/ debouncedSearchTerm st <> "" ->
  search (debouncedSearchTerm st) = Fulfilled res ->
  snd (exec p st) = Normal
  /\ options (fst (exec p st)) = res
  /\ isLoading (fst (exec p st)) = false.
Proof.
  intros Hs Ho Hrun Hres. unfold exec. rewrite Hs, Ho. simpl.
  assert (D : forall s, debouncedSearchTerm s = debouncedSearchTerm st ->
                        doSearch p s
                        = (setIsLoading false (setOptions res (setIsLoading true s)),
                           Normal)).
  { intros s E. unfold doSearch. now rewrite Hs, E, Hres. }
  unfold andThen.
  destruct (triggerSearchOnFocus p) eqn:Et.
  - rewrite (D st eq_refl).
    destruct (0 <? _)%nat; [rewrite D by reflexivity|]; now repeat split.
  - destruct Hrun as [Hrun | Hrun]; [discriminate|].
    assert (Hlen : (0 <? String.length (debouncedSearchTerm st))%nat = true)
      by (destruct (debouncedSearchTerm st); [congruence | reflexivity]).
    unfold skip. rewrite Hlen, (D st eq_refl). now repeat split.
Qed.

Lemma exec_fulfilled_witness :
  options (fst (exec
     (mkProps None [] MAX_SAFE_INTEGER false false
        (Some (fun q => Fulfilled [Demo.plain q])) true true)
     Demo.typing))
  = [Demo.plain "ab"].
Proof.
  apply (exec_fulfilled
           (mkProps None [] MAX_SAFE_INTEGER false false
              (Some (fun q => Fulfilled [Demo.plain q])) true true)
           Demo.typing (fun q => Fulfilled [Demo.plain q]) [Demo.plain "ab"]
           eq_refl eq_refl).
  - right. discriminate.
  - reflexivity.
Defined.

Lemma sameOptions_eq (a b : list Option) : sameOptions a b = true -> a = b.
Proof.
  revert b; induction a as [|x a IH]; intros [|y b]; simpl; try discriminate;
    [reflexivity|].
  intros H. apply andb_true_iff in H. destruct H as [Hxy Hab].
  f_equal; [|now apply IH].
  unfold sameOption in Hxy. repeat (apply andb_true_iff in Hxy; destruct Hxy as [Hxy ?]).
  destruct x as [v1 l1 d1 f1], y as [v2 l2 d2 f2]; simpl in *.
  apply String.eqb_eq in Hxy. apply String.eqb_eq in H1.
  assert (d1 = d2) by
    (destruct d1 as [[|]|], d2 as [[|]|]; simpl in *; congruence).
  assert (f1 = f2) by
    (destruct f1 as [[|]|], f2 as [[|]|]; simpl in *; congruence).
  congruence.
Qed.

(** X9. After the effect on the controlled [options] property the pool
    is that property, provided no [onSearch] is configured; with an
    [onSearch], or without the property, the state is left alone.  The
    comparison by [JSON.stringify] only saves a write: equal strings
    mean equal options. *)
Theorem syncOptions_pool (sameJSON : list Option -> list Option -> bool)
    (arrayOptions : option (list Option)) (p : Props) (st : State) :
  (forall a b, sameJSON a b = true -> a = b) ->
  (forall l, arrayOptions = Some l -> onSearch p = None ->
             options (syncOptions sameJSON arrayOptions p st) = l)
  /\ (arrayOptions = None \/ onSearch p <> None ->
      syncOptions sameJSON arrayOptions p st = st)
  /\ selected (syncOptions sameJSON arrayOptions p st) = selected st.
Proof.
  intros Hjson. unfold syncOptions. repeat split.
  - intros l -> ->. destruct (sameJSON l (options st)) eqn:E; simpl;
      [symmetry; now apply Hjson | reflexivity].
  - intros [-> | H]; [reflexivity|].
    destruct arrayOptions; [|reflexivity].
    destruct (onSearch p); [reflexivity | congruence].
  - destruct arrayOptions; [|reflexivity].
    destruct (onSearch p); [reflexivity|].
    now destruct (negb _).
Qed.

Lemma syncOptions_pool_witness :
  options (syncOptions sameOptions (Some [Demo.plain "z"]) (Demo.props 3)
             (Demo.state []))
  = [Demo.plain "z"].
Proof.
  apply (proj1 (syncOptions_pool sameOptions (Some [Demo.plain "z"]) (Demo.props 3)
                  (Demo.state []) sameOptions_eq) [Demo.plain "z"] eq_refl eq_refl).
Defined.

Lemma CommandGroupContent_some (sel : list Option) (vitems : list nat) :
  Forall (fun i => i < List.length sel)%nat vitems <->
  exists items, CommandGroupContent sel vitems = Some items.
Proof.
  induction vitems as [|i vitems IH]; simpl.
  - split; [intros _; now eexists | constructor].
  - split.
    + intros H. inversion H as [|? ? Hi Hrest]; subst.
      apply IH in Hrest. destruct Hrest as [items ->].
      apply nth_error_Some in Hi.
      destruct (nth_error sel i); [now eexists | congruence].
    + intros [items H].
      destruct (nth_error sel i) eqn:E; [|discriminate].
      destruct (CommandGroupContent sel vitems) eqn:E'; [|discriminate].
      constructor; [apply nth_error_Some; congruence | apply IH; now eexists].
Qed.

(** X10. The rendered list can be built exactly when every row the
    virtualizer asks for is a row of the candidate list; it then has one
    item per row asked for, each for the candidate of that row. *)
Theorem CommandGroupContent_rows (sel : list Option) (virtualOptions : list nat) :
  (Forall (fun i => i < List.length sel)%nat virtualOptions <->
   exists items, CommandGroupContent sel virtualOptions = Some items)
  /\ (forall items, CommandGroupContent sel virtualOptions = Some items ->
        map (fun it => Some (item_option it)) items
        = map (nth_error sel) virtualOptions).
Proof.
  split; [apply CommandGroupContent_some|].
  induction virtualOptions as [|i rest IH]; simpl; intros items H.
  - now injection H as <-.
  - destruct (nth_error sel i) eqn:E; [|discriminate].
    destruct (CommandGroupContent sel rest) eqn:E'; [|discriminate].
    injection H as <-. simpl. now rewrite (IH l eq_refl).
Qed.

Lemma handleKeyDown_unselects (input : option string) (key : string) (st : State) :
  fst (handleKeyDown input key st) = st
  \/ exists o, In o (selected st) /\ truthy (fixed o) = false
                /\ fst (handleKeyDown input key st) = fst (handleUnselect o st).
Proof.
  unfold handleKeyDown. destruct input as [q|]; [|now left].
  destruct ((key =? "Delete") || (key =? "Backspace")).
  - destruct ((q =? "") && _).
    + destruct (nth_error _ _) as [o|] eqn:En.
      * destruct (truthy (fixed o)) eqn:Ef; simpl.
        -- left. now destruct (key =? "Escape").
        -- right. exists o. split; [eapply nth_error_In; eassumption|].
           split; [exact Ef|].
           destruct (handleUnselect o st) as [st1 c1].
           now destruct (key =? "Escape").
      * left. now destruct (key =? "Escape").
    + left. now destruct (key =? "Escape").
  - left. now destruct (key =? "Escape").
Qed.

Lemma same_value_same_entry (l : list Option) (a b : Option) :
  NoDup (map value l) -> In a l -> In b l -> value a = value b -> a = b.
Proof.
  induction l as [|x l IH]; simpl; intros Hnd Ha Hb E; [destruct Ha|].
  inversion Hnd as [|? ? Hx Hl]; subst.
  destruct Ha as [-> | Ha], Hb as [-> | Hb]; try reflexivity.
  - exfalso. apply Hx. rewrite E. now apply in_map.
  - exfalso. apply Hx. rewrite <- E. now apply in_map.
  - now apply IH.
Qed.

(** X27. While the selected values are pairwise distinct, no handler
    removes a fixed entry: not clear-all, not Backspace or Delete, and
    not the remove button of another entry, which is hidden on the
    fixed entry itself. *)
Theorem fixed_entries_survive (st : State) (s : Option)
    (input : option string) (key : string) :
  NoDup (map value (selected st)) ->
  In s (selected st) ->
  truthy (fixed s) = true ->
  In s (selected (fst (clearAll st)))
  /\ In s (selected (fst (handleKeyDown input key st)))
  /\ (forall o, In o (selected st) -> unselectHidden false o = false ->
        In s (selected (fst (handleUnselect o st)))).
Proof.
  intros Hnd Hs Hf.
  assert (U : forall o, In o (selected st) -> truthy (fixed o) = false ->
                        In s (selected (fst (handleUnselect o st)))).
  { intros o Ho Hof. unfold handleUnselect; simpl. apply filter_In.
    split; [assumption|]. apply negb_true_iff, String.eqb_neq. intros E.
    assert (s = o) by (eapply same_value_same_entry; eassumption).
    congruence. }
  repeat split.
  - unfold clearAll; simpl. apply filter_In. now split.
  - destruct (handleKeyDown_unselects input key st) as [-> | [o [Ho [Hof ->]]]];
      [assumption | now apply U].
  - intros o Ho Hh. apply U; [assumption|]. exact Hh.
Qed.

Lemma fixed_entries_survive_witness :
  In (Demo.fixedOption "a")
     (selected (fst (handleKeyDown (Some "") "Backspace"
                       (Demo.state [Demo.fixedOption "a"; Demo.plain "b"])))).
Proof.
  refine (proj1 (proj2 (fixed_entries_survive
           (Demo.state [Demo.fixedOption "a"; Demo.plain "b"])
           (Demo.fixedOption "a") (Some "") "Backspace" _ _ _))).
  - simpl. repeat constructor; simpl; intuition discriminate.
  - now left.
  - reflexivity.
Defined.

End SelectorExtras.


(** ** Properties of the debounce hook *)

Module DebounceExtras.

Import Debounce.

(** X11. The timer of the debounced query runs for the [delay] property
    when that is a number other than zero and for 250 otherwise: a
    delay of zero cannot be asked for, and the 500 of the hook itself
    is never the default. *)
Theorem timerDelay_default (delay : option Z) :
  timerDelay delay
  = match delay with
    | Some n => if (n =? 0)%Z then 250%Z else n
    | None => 250%Z
    end
  /\ timerDelay delay <> 0%Z.
Proof.
  unfold timerDelay, orNumber. destruct delay as [n|]; simpl.
  - destruct (n =? 0)%Z eqn:E; simpl; [split; [reflexivity | discriminate]|].
    rewrite E. split; [reflexivity|]. now apply Z.eqb_neq.
  - split; [reflexivity | discriminate].
Qed.

Lemma run_app (h : Hook) (a b : list Event) :
  run h (a ++ b)
  = (fst (run (fst (run h a)) b), snd (run h a) ++ snd (run (fst (run h a)) b)).
Proof.
  revert h; induction a as [|e a IH]; intros h; simpl.
  - now destruct (run h b).
  - destruct (step h e) as [h1 call]. rewrite IH.
    destruct (run h1 a) as [h2 calls]; simpl.
    destruct (run h2 b) as [h3 calls']; simpl.
    now destruct call.
Qed.

Lemma last_default {A : Type} (a : A) (l : list A) (d1 d2 : A) :
  last (a :: l) d1 = last (a :: l) d2.
Proof.
  revert a; induction l as [|b l IH]; intros a; [reflexivity|].
  change (last (b :: l) d1 = last (b :: l) d2). apply IH.
Qed.

Lemma run_renders (vs : list string) :
  forall h,
    (pending h = false -> debouncedValue h = value h) ->
    value (fst (run h (map Render vs))) = last vs (value h)
    /\ debouncedValue (fst (run h (map Render vs))) = debouncedValue h
    /\ snd (run h (map Render vs)) = []
    /\ (pending (fst (run h (map Render vs))) = false ->
        debouncedValue (fst (run h (map Render vs)))
        = value (fst (run h (map Render vs)))).
Proof.
  induction vs as [|v vs IH]; intros h Hinv; simpl.
  - repeat split; assumption.
  - destruct (v =? value h) eqn:E.
    + apply String.eqb_eq in E. subst v.
      specialize (IH h Hinv). destruct (run h (map Render vs)) as [h2 calls].
      simpl in *. destruct IH as [I1 [I2 [I3 I4]]]. repeat split; try assumption.
      rewrite I1. now destruct vs.
    + specialize (IH (mkHook v (debouncedValue h) true)).
      destruct (run (mkHook v (debouncedValue h) true) (map Render vs)) as [h2 calls].
      simpl in *. destruct IH as [I1 [I2 [I3 I4]]]; [discriminate|].
      repeat split; try assumption.
      rewrite I1. destruct vs; [reflexivity | apply last_default].
Qed.

(** X12. While the value keeps changing and the timer has not run out,
    the debounced value stays as it was and is never set; when the
    timer then runs out, the debounced value is the last value
    rendered, set by one call at most. *)
Theorem debounce_last_value_wins (h : Hook) (vs : list string) :
  (pending h = false -> debouncedValue h = value h) ->
  debouncedValue (fst (run h (map Render vs))) = debouncedValue h
  /\ snd (run h (map Render vs)) = []
  /\ debouncedValue (fst (run h (map Render vs ++ [Timeout])))
     = last vs (value h)
  /\ snd (run h (map Render vs ++ [Timeout]))
     = if pending (fst (run h (map Render vs)))
       then [last vs (value h)] else [].
Proof.
  intros Hinv. destruct (run_renders vs h Hinv) as [R1 [R2 [R3 R4]]].
  rewrite run_app, R3. simpl.
  destruct (pending (fst (run h (map Render vs)))) eqn:Ep; simpl;
    repeat split; try assumption; try congruence.
  rewrite <- R1. now apply R4.
Qed.

Lemma debounce_last_value_wins_witness :
  debouncedValue (fst (run (mount "") (map Render ["a"; "ab"; "abc"] ++ [Timeout])))
  = "abc"
  /\ snd (run (mount "") (map Render ["a"; "ab"; "abc"] ++ [Timeout])) = ["abc"].
Proof.
  split;
    apply (debounce_last_value_wins (mount "") ["a"; "ab"; "abc"]);
    discriminate.
Defined.

End DebounceExtras.

(** ** Properties of the form field around the widget *)

Module EnumMultiInputExtras.

Import JsString MultipleSelector SelectorView EnumMultiInput Facts.

Lemma handleOnChange_toOptions (field_value : option (list string)) :
  handleOnChange (toOptions field_value) = valuesOf field_value.
Proof.
  unfold handleOnChange, toOptions, valuesOf. rewrite map_map. simpl.
  apply map_id.
Qed.

(** X13. The values of the form become options and back unchanged; an
    option made from a form value has that value as its label and
    neither flag. *)
Theorem values_round_trip (field_value : option (list string)) :
  handleOnChange (toOptions field_value) = valuesOf field_value
  /\ (forall o, In o (toOptions field_value) ->
        label o = value o /\ disable o = None /\ fixed o = None).
Proof.
  split; [apply handleOnChange_toOptions|].
  intros o H. unfold toOptions in H. apply in_map_iff in H.
  destruct H as [v [<- _]]. now repeat split.
Qed.

(** X14. With the selection of the widget made from the form value,
    selecting a candidate below the limit leaves the form value with
    the value of the candidate at its end; at the limit the form value
    is not written. *)
Theorem select_appends_to_field (p : Props) (st : State)
    (field_value : option (list string)) (o : Option) :
  selected st = toOptions field_value ->
  ((Z.of_nat (List.length (valuesOf field_value)) < maxSelected p)%Z ->
   fieldAfter (snd (onSelect p o st)) field_value
   = Some (valuesOf field_value ++ [value o]))
  /\ ((maxSelected p <= Z.of_nat (List.length (valuesOf field_value)))%Z ->
      fieldAfter (snd (onSelect p o st)) field_value = field_value).
Proof.
  intros Hsel.
  assert (Hlen : List.length (selected st) = List.length (valuesOf field_value)).
  { rewrite Hsel. unfold toOptions. apply length_map. }
  unfold onSelect. rewrite Hlen. split; intros H.
  - apply Z.leb_gt in H. rewrite H. simpl.
    unfold handleOnChange. rewrite map_app, Hsel.
    fold (handleOnChange (toOptions field_value)).
    now rewrite handleOnChange_toOptions.
  - apply Z.leb_le in H. now rewrite H.
Qed.

Lemma select_appends_to_field_witness :
  fieldAfter (snd (onSelect (Demo.props 3) (Demo.plain "x")
                     (Demo.state (toOptions (Some ["a"])))))
             (Some ["a"])
  = Some ["a"; "x"]
  /\ fieldAfter (snd (onSelect (Demo.props 1) (Demo.plain "x")
                        (Demo.state (toOptions (Some ["a"])))))
                (Some ["a"])
     = Some ["a"].
Proof.
  split.
  - apply (proj1 (select_appends_to_field (Demo.props 3)
                    (Demo.state (toOptions (Some ["a"]))) (Some ["a"])
                    (Demo.plain "x") eq_refl)).
    simpl. lia.
  - apply (proj2 (select_appends_to_field (Demo.props 1)
                    (Demo.state (toOptions (Some ["a"]))) (Some ["a"])
                    (Demo.plain "x") eq_refl)).
    simpl. lia.
Defined.

Lemma filter_none {A : Type} (f : A -> bool) (l : list A) :
  (forall a, In a l -> f a = false) -> filter f l = [].
Proof.
  induction l as [|a l IH]; intros H; simpl; [reflexivity|].
  rewrite (H a (or_introl eq_refl)). apply IH. intros; apply H; now right.
Qed.

(** X15. No entry that comes from the form value is fixed: clear-all
    empties the form value, and its button is shown whenever the
    selection is not empty and the widget is enabled. *)
Theorem clearAll_empties_field (st : State) (field_value : option (list string)) :
  selected st = toOptions field_value ->
  selected (fst (clearAll st)) = []
  /\ fieldAfter (snd (clearAll st)) field_value = Some []
  /\ (clearAllHidden false false st = false <-> valuesOf field_value <> []).
Proof.
  intros Hsel.
  assert (Hnone : filter (fun s => truthy (fixed s)) (selected st) = []).
  { apply filter_none. intros s Hs. rewrite Hsel in Hs.
    unfold toOptions in Hs. apply in_map_iff in Hs. now destruct Hs as [v [<- _]]. }
  unfold clearAll, clearAllHidden; simpl. rewrite Hnone. simpl.
  split; [reflexivity|]. split; [reflexivity|].
  rewrite Hsel. unfold toOptions, valuesOf.
  destruct field_value as [[|v l]|]; simpl;
    (split; [intros H; try discriminate H; discriminate
            | intros H; try reflexivity; exfalso; apply H; reflexivity]).
Qed.

Lemma clearAll_empties_field_witness :
  fieldAfter (snd (clearAll (Demo.state (toOptions (Some ["a"; "b"])))))
             (Some ["a"; "b"])
  = Some [].
Proof.
  apply (clearAll_empties_field (Demo.state (toOptions (Some ["a"; "b"])))
           (Some ["a"; "b"]) eq_refl).
Defined.

(** X16. The placeholder handed to the widget is one of the two texts
    of the component and never the text the host asked for: a
    placeholder of the host only selects the first of the two. *)
Theorem placeholder_is_builtin (ph : option string) (creatable : option bool) :
  (placeholder ph creatable = "Type to create"
   \/ placeholder ph creatable = "Search...")
  /\ (truthyString ph = true -> placeholder ph creatable = "Type to create")
  /\ (forall s, ph = Some s -> s <> "Type to create" -> s <> "Search..." ->
                placeholder ph creatable <> s).
Proof.
  unfold placeholder. repeat split.
  - destruct (_ || _); [now left | now right].
  - intros ->. reflexivity.
  - intros s _ H1 H2. destruct (_ || _); congruence.
Qed.

Lemma placeholder_is_builtin_witness :
  placeholder (Some "Pick a tag") None = "Type to create".
Proof.
  apply (placeholder_is_builtin (Some "Pick a tag") None). reflexivity.
Defined.

Lemma find_value_none (picked : list string) (v : string) :
  find (fun p => value p =? v)
       (map (fun val => mkOption val val None None) picked) = None
  <-> existsb (String.eqb v) picked = false.
Proof.
  induction picked as [|a l IH]; simpl; [tauto|].
  rewrite (String.eqb_sym v a). destruct (a =? v); simpl; [split; discriminate|].
  exact IH.
Qed.

(** X17. For an enum array that is not creatable, with an empty query
    and no async search, the values of the candidates are the values of
    the enum that are not in the form value yet, in the order of the
    enum. *)
Theorem enum_candidates (p : Props) (st : State) (creatable : option bool)
    (values : list string) (field_value : option (list string)) :
  truthy creatable = false ->
  options st = enumOptions creatable (ValuesArray values) ->
  selected st = toOptions field_value ->
  onSearch p = None ->
  debouncedSearchTerm st = "" ->
  map value (selectables p st)
  = filter (fun v => negb (existsb (String.eqb v) (valuesOf field_value))) values.
Proof.
  intros Hc Hopt Hsel Hs Hq. unfold selectables, removePickedOption.
  rewrite Hs, Hq, Hopt, Hsel. unfold enumOptions, toOptions. rewrite Hc. simpl.
  fold (valuesOf field_value). rewrite map_map. simpl. clear Hopt.
  induction values as [|v values IH]; simpl; [reflexivity|].
  destruct (find _ _) eqn:E; simpl.
  - assert (Hex : existsb (String.eqb v) (valuesOf field_value) <> false).
    { intros Hf. apply find_value_none in Hf. congruence. }
    destruct (existsb _ _); [simpl; exact IH | congruence].
  - apply find_value_none in E. rewrite E. simpl.
    rewrite includes_empty. simpl. now rewrite IH.
Qed.

Lemma enum_candidates_witness :
  map value
      (selectables (Demo.props 3)
         (mkState (toOptions (Some ["user"]))
                  (enumOptions None (ValuesArray ["admin"; "user"; "guest"]))
                  "" "" false true))
  = ["admin"; "guest"].
Proof.
  apply (enum_candidates (Demo.props 3)
           (mkState (toOptions (Some ["user"]))
                    (enumOptions None (ValuesArray ["admin"; "user"; "guest"]))
                    "" "" false true)
           None ["admin"; "user"; "guest"] (Some ["user"])
           eq_refl eq_refl eq_refl eq_refl eq_refl).
Defined.

End EnumMultiInputExtras.

(** ** Further properties of the schema walker *)

Module WalkerExtras.

Import Walker WalkerView Spec Facts.

Lemma handleIfZodNumber_twice (x : ZodTypeAny) :
  handleIfZodNumber (handleIfZodNumber x) = handleIfZodNumber x.
Proof.
  destruct x as [d|d c|d|d v|d t|d s|d i|d i|d i|d s|d k]; try reflexivity.
  1-3: destruct i as [ | | | | | | | | | |d' k]; try reflexivity; now destruct k.
  now destruct k.
Qed.

Lemma handleIfZodNumber_tags (x : ZodTypeAny) :
  typeName (handleIfZodNumber x) = typeName x
  /\ description (handleIfZodNumber x) = description x
  /\ typeName (unwrap (handleIfZodNumber x)) = typeName (unwrap x).
Proof.
  destruct x as [d|d c|d|d v|d t|d s|d i|d i|d i|d s|d k];
    try (now repeat split).
  1-3: destruct i as [ | | | | | | | | | |d' k]; try (now repeat split);
       now destruct k.
  now destruct k.
Qed.

(** X18. Forcing coercion is idempotent and changes nothing but the
    [coerce] flag: the type tag of the node, its description and the
    type tag it unwraps to stay as they were. *)
Theorem handleIfZodNumber_idempotent (x : ZodTypeAny) :
  handleIfZodNumber (handleIfZodNumber x) = handleIfZodNumber x
  /\ typeName (handleIfZodNumber x) = typeName x
  /\ description (handleIfZodNumber x) = description x
  /\ typeName (unwrap (handleIfZodNumber x)) = typeName (unwrap x).
Proof. split; [apply handleIfZodNumber_twice | apply handleIfZodNumber_tags]. Qed.

(** X19. Coercion reaches a number and a number right under one
    wrapper, and no further: a node under two wrappers or more is left
    as it is, a number included. *)
Theorem handleIfZodNumber_depth (item : ZodTypeAny) :
  (forall d c, item = ZodNumber d c -> handleIfZodNumber item = ZodNumber d true)
  /\ (forall d c, innerTypeOf item = Some (ZodNumber d c) ->
        innerTypeOf (handleIfZodNumber item) = Some (ZodNumber d true))
  /\ (forall i j, innerTypeOf item = Some i -> innerTypeOf i = Some j ->
        handleIfZodNumber item = item).
Proof.
  repeat split.
  - intros d c ->. reflexivity.
  - intros d c H.
    destruct item as [ | | | | | |d0 i|d0 i|d0 i| | ]; try discriminate;
      injection H as ->; reflexivity.
  - intros i j Hi Hj.
    destruct item as [ | | | | | |d0 i0|d0 i0|d0 i0| | ]; try discriminate;
      injection Hi as ->;
      destruct i as [ | | | | | |d1 i1|d1 i1|d1 i1| | ]; try discriminate;
      reflexivity.
Qed.

Lemma handleIfZodNumber_depth_witness :
  handleIfZodNumber (ZodDefault None (ZodOptional None (ZodNumber None false)))
  = ZodDefault None (ZodOptional None (ZodNumber None false))
  /\ innerTypeOf (handleIfZodNumber (ZodOptional None (ZodNumber None false)))
     = Some (ZodNumber None true).
Proof.
  split.
  - apply (proj2 (proj2 (handleIfZodNumber_depth
                           (ZodDefault None (ZodOptional None (ZodNumber None false)))))
                 (ZodOptional None (ZodNumber None false)) (ZodNumber None false)
                 eq_refl eq_refl).
  - apply (proj1 (proj2 (handleIfZodNumber_depth
                           (ZodOptional None (ZodNumber None false))))
                 None false eq_refl).
Defined.

(** X20. The two answers of [isZodPrimitiveArray] exclude each other; a
    positive answer means the node unwraps to an array whose element
    type is the [innerType] returned, a primitive or an enum as
    answered; and an array whose element type is itself wrapped gets
    two negative answers. *)
Theorem isZodPrimitiveArray_sound (item : ZodTypeAny) :
  isPrimitiveArray (isZodPrimitiveArray item)
  && isEnumOfPrimitives (isZodPrimitiveArray item) = false
  /\ (isPrimitiveArray (isZodPrimitiveArray item)
      || isEnumOfPrimitives (isZodPrimitiveArray item) = true ->
      (exists d, unwrap item = ZodArray d (innerType (isZodPrimitiveArray item)))
      /\ isPrimitive (innerType (isZodPrimitiveArray item))
         = isPrimitiveArray (isZodPrimitiveArray item)
      /\ isEnum (innerType (isZodPrimitiveArray item))
         = isEnumOfPrimitives (isZodPrimitiveArray item))
  /\ (forall d e w, unwrap item = ZodArray d e -> innerTypeOf e = Some w ->
        isPrimitiveArray (isZodPrimitiveArray item) = false
        /\ isEnumOfPrimitives (isZodPrimitiveArray item) = false).
Proof.
  unfold isZodPrimitiveArray.
  destruct (unwrap item) as [d|d c|d|d v|d t|d s|d i|d i|d i|d s|d k] eqn:E;
    simpl; (split; [|split]);
    try reflexivity; try (intros H; discriminate H);
    try (intros d' e w H; discriminate H).
  - now destruct t.
  - intros _. split; [now exists d|]. split; now destruct t.
  - intros d' e w H Hw. injection H as _ <-.
    destruct t; try discriminate Hw; now split.
Qed.

Lemma isZodPrimitiveArray_sound_witness :
  isPrimitiveArray
    (isZodPrimitiveArray
       (ZodArray None (ZodOptional None (ZodString None)))) = false.
Proof.
  apply (proj2 (proj2 (isZodPrimitiveArray_sound
                         (ZodArray None (ZodOptional None (ZodString None)))))
               None (ZodOptional None (ZodString None)) (ZodString None)
               eq_refl eq_refl).
Defined.

Section WalkExtras.

Context {imports : Imports}.

Variable fieldConfig : option FieldConfig.
Variable path : list string.
Variable dependencies : list Dependency.
Variable watch : Watch.

Lemma renderKey_after (name : string) (item : ZodTypeAny) :
  after (renderKey fieldConfig path dependencies watch name item)
  = handleIfZodNumber item.
Proof.
  unfold renderKey. destruct (isHidden _); [reflexivity|].
  destruct (getBaseType _ =? "ZodObject"); [reflexivity|].
  destruct (getBaseType _ =? "ZodArray"); [|reflexivity].
  now destruct (isPrimitiveArray _ || isEnumOfPrimitives _).
Qed.

Lemma renderKey_coerced (name : string) (item : ZodTypeAny) :
  renderKey fieldConfig path dependencies watch name (handleIfZodNumber item)
  = renderKey fieldConfig path dependencies watch name item.
Proof. unfold renderKey. now rewrite handleIfZodNumber_twice. Qed.

Lemma walk_results_stable (shape : Shape) :
  map (fun '(name, item) =>
         (name, renderKey fieldConfig path dependencies watch name item))
      (map (fun '(name, r) => (name, after r))
           (map (fun '(name, item) =>
                   (name, renderKey fieldConfig path dependencies watch name item))
                shape))
  = map (fun '(name, item) =>
           (name, renderKey fieldConfig path dependencies watch name item))
        shape.
Proof.
  induction shape as [|[name item] shape IH]; simpl; [reflexivity|].
  now rewrite IH, renderKey_after, renderKey_coerced.
Qed.

(** X21. A second pass over the shape the first pass left behind gives
    the same children, the same lookups and the same shape: rendering
    again is stable, although the first pass wrote into the schema. *)
Theorem walk_stable (shape : Shape) :
  walk fieldConfig path dependencies watch
       (shapeAfter (walk fieldConfig path dependencies watch shape))
  = walk fieldConfig path dependencies watch shape.
Proof.
  unfold walk; simpl. now rewrite walk_results_stable.
Qed.

Lemma renderKey_lookups (name : string) (item : ZodTypeAny) :
  forall n, In n (lookups (renderKey fieldConfig path dependencies watch name item)) ->
  n = name /\ isHidden (resolveDependencies dependencies name watch) = false.
Proof.
  unfold renderKey. destruct (isHidden _); [intros n []|].
  destruct (getBaseType _ =? "ZodObject");
    [simpl; intros n [<- | []]; now split|].
  destruct (getBaseType _ =? "ZodArray");
    [|simpl; intros n [<- | []]; now split].
  destruct (isPrimitiveArray _ || isEnumOfPrimitives _); simpl.
  - intros n [<- | [<- | []]]; now split.
  - intros n [<- | []]; now split.
Qed.

(** X22. A pass keeps the keys of the shape and their order, returns
    one child per key, and looks up in the field configuration only
    keys of the shape that no dependency hides. *)
Theorem walk_keys (shape : Shape) :
  map fst (shapeAfter (walk fieldConfig path dependencies watch shape))
  = map fst shape
  /\ List.length (children (walk fieldConfig path dependencies watch shape))
     = List.length shape
  /\ (forall n, In n (allLookups (walk fieldConfig path dependencies watch shape)) ->
        In n (notHidden dependencies watch shape)).
Proof.
  unfold walk, notHidden; simpl. repeat split.
  - rewrite !map_map. apply map_ext. now intros [name item].
  - now rewrite !length_map.
  - induction shape as [|[name item] shape IH]; simpl; [intros n []|].
    intros n Hn. apply in_app_or in Hn. destruct Hn as [Hn | Hn].
    + apply renderKey_lookups in Hn. destruct Hn as [-> Hh].
      rewrite Hh. simpl. now left.
    + apply IH in Hn. destruct (negb _); [now right | assumption].
Qed.

Lemma renderKey_key (name : string) (item : ZodTypeAny) (e : Element) :
  element (renderKey fieldConfig path dependencies watch name item) = Some e ->
  elementKey e = String.concat "." (path ++ [name]).
Proof.
  unfold renderKey. destruct (isHidden _); [discriminate|].
  destruct (getBaseType _ =? "ZodObject"); [now intros [= <-]|].
  destruct (getBaseType _ =? "ZodArray"); [|now intros [= <-]].
  destruct (isPrimitiveArray _ || isEnumOfPrimitives _); now intros [= <-].
Qed.

Lemma append_assoc3 (a b c : string) :
  ((a ++ b) ++ c = a ++ (b ++ c))%string.
Proof. induction a as [|x a IH]; simpl; [reflexivity | now rewrite IH]. Qed.

Lemma append_cancel (pre a b : string) :
  (pre ++ a = pre ++ b)%string -> a = b.
Proof.
  induction pre as [|x pre IH]; simpl; [auto|]. intros H. injection H as H. auto.
Qed.

Lemma concat_snoc (sep : string) (l : list string) :
  exists pre, forall n, String.concat sep (l ++ [n]) = (pre ++ n)%string.
Proof.
  induction l as [|h t [pre IH]].
  - now exists ""%string.
  - exists (h ++ sep ++ pre)%string. intros n.
    change ((h :: t) ++ [n]) with (h :: (t ++ [n])).
    assert (Hne : exists x r, t ++ [n] = x :: r)
      by (destruct t; simpl; eauto).
    destruct Hne as [x [r Hne]]. simpl. rewrite Hne, <- Hne, IH.
    now rewrite !append_assoc3.
Qed.

(** X23. When the keys of the shape are pairwise distinct, so are the
    [key] attributes of the elements a pass returns. *)
Theorem element_keys_distinct (shape : Shape) :
  NoDup (map fst shape) ->
  NoDup (childKeys (children (walk fieldConfig path dependencies watch shape))).
Proof.
  destruct (concat_snoc "." path) as [pre Hpre].
  assert (Hin : forall sh k,
             In k (childKeys (children (walk fieldConfig path dependencies watch sh))) ->
             exists n, In n (map fst sh) /\ k = (pre ++ n)%string).
  { induction sh as [|[name item] sh IH]; simpl; intros k Hk; [destruct Hk|].
    apply in_app_or in Hk. destruct Hk as [Hk | Hk].
    - destruct (element _) as [e|] eqn:He; simpl in Hk; [|destruct Hk].
      destruct Hk as [<- | []]. exists name. split; [now left|].
      rewrite (renderKey_key _ _ _ He). apply Hpre.
    - destruct (IH k Hk) as [n [Hn ->]]. exists n. split; [now right | reflexivity]. }
  induction shape as [|[name item] shape IH]; simpl; intros Hnd; [constructor|].
  inversion Hnd as [|? ? Hname Hrest]; subst.
  destruct (element _) as [e|] eqn:He; simpl; [|now apply IH].
  constructor; [|now apply IH].
  intros Hk. destruct (Hin shape _ Hk) as [n [Hn E]].
  rewrite (renderKey_key _ _ _ He), Hpre in E. apply append_cancel in E.
  subst n. contradiction.
Qed.

(** X24. The nested [<AutoFormObject>] of a sub-object is rendered
    without the dependencies of its parent: as long as an empty list of
    rules hides nothing, every key of the sub-object gets an element,
    whatever the rules of the parent are. *)
Theorem nested_object_hides_nothing (props : AutoFormObjectProps)
    (result : WalkResult) :
  (forall name, isHidden (resolveDependencies [] name watch) = false) ->
  renderChild props watch = Some result ->
  forallb isElement (children result) = true
  /\ exists d shape,
       getBaseSchema (props_schema props) = Some (ZodObject d shape)
       /\ List.length (children result) = List.length shape.
Proof.
  intros Hempty. unfold renderChild, AutoFormObject.
  destruct (getBaseSchema (props_schema props)) as [[ | | | | |d shape| | | | | ]|];
    try discriminate.
  intros [= <-]. split.
  - unfold walk; simpl. rewrite !map_map. apply forallb_forall.
    intros c Hc. apply in_map_iff in Hc. destruct Hc as [[name item] [<- _]].
    unfold renderKey. rewrite Hempty.
    destruct (getBaseType _ =? "ZodObject"); [reflexivity|].
    destruct (getBaseType _ =? "ZodArray"); [|reflexivity].
    now destruct (isPrimitiveArray _ || isEnumOfPrimitives _).
  - exists d, shape. split; [reflexivity|].
    unfold walk; simpl. now rewrite !length_map.
Qed.

(** X25. For a key that is not hidden and becomes a form field, what a
    dependency decides reaches the widget: a field the dependency
    disables is rendered disabled and a field it requires is rendered
    required, whatever the schema and the field configuration say. *)
Theorem dependency_reaches_widget (name : string) (item : ZodTypeAny)
    (key : string) (data : FormFieldData) (field_value : option string)
    (r : Rendered) :
  element (renderKey fieldConfig path dependencies watch name item)
  = Some (FormField key data) ->
  render data field_value = Some r ->
  (isDisabled (resolveDependencies dependencies name watch) = true ->
   rendered_disabled r = true)
  /\ (isRequired (resolveDependencies dependencies name watch) = true ->
      rendered_isRequired r = true).
Proof.
  intros He Hr.
  assert (Hd : field_isDisabled data
               = isDisabled (resolveDependencies dependencies name watch)
               /\ (isRequired (resolveDependencies dependencies name watch) = true ->
                   field_isRequired data = true)).
  { revert He. unfold renderKey. destruct (isHidden _); [discriminate|].
    destruct (getBaseType _ =? "ZodObject"); [discriminate|].
    destruct (getBaseType _ =? "ZodArray").
    - destruct (isPrimitiveArray _ || isEnumOfPrimitives _); [|discriminate].
      unfold formField. intros [= _ <-]. simpl. split; [reflexivity|].
      now intros ->.
    - unfold formField. intros [= _ <-]. simpl. split; [reflexivity|].
      now intros ->. }
  destruct Hd as [Hd Hq]. unfold render in Hr.
  destruct (InputComponent data); [|discriminate]. injection Hr as <-. simpl.
  split.
  - intros H. rewrite Hd, H. apply orb_true_r.
  - exact Hq.
Qed.

(** X26. When a dependency overrides the options of a key that becomes
    a form field, the schema node handed to the widget is an enum over
    exactly that list, while the widget is still chosen by the base
    type of the declared node. *)
Theorem override_options_make_enum (name : string) (item : ZodTypeAny)
    (key : string) (data : FormFieldData) (opts : list string) :
  element (renderKey fieldConfig path dependencies watch name item)
  = Some (FormField key data) ->
  overrideOptions (resolveDependencies dependencies name watch) = Some opts ->
  field_zodItem data = ZodEnum None opts
  /\ field_zodBaseType data = getBaseType (handleIfZodNumber item).
Proof.
  intros He Ho. revert He. unfold renderKey. destruct (isHidden _); [discriminate|].
  destruct (getBaseType _ =? "ZodObject"); [discriminate|].
  destruct (getBaseType _ =? "ZodArray").
  - destruct (isPrimitiveArray _ || isEnumOfPrimitives _); [|discriminate].
    unfold formField. rewrite Ho. now intros [= _ <-].
  - unfold formField. rewrite Ho. now intros [= _ <-].
Qed.

End WalkExtras.

Lemma element_keys_distinct_witness :
  NoDup (childKeys
           (children (walk (imports := WalkerDemo.imports) None ["profile"]
                           WalkerDemo.hideAge WalkerDemo.answers WalkerDemo.person))).
Proof.
  apply (element_keys_distinct (imports := WalkerDemo.imports) None ["profile"]
           WalkerDemo.hideAge WalkerDemo.answers WalkerDemo.person).
  simpl. repeat constructor; simpl; intuition discriminate.
Defined.

Lemma nested_object_hides_nothing_witness :
  forallb isElement
    (children (walk (imports := WalkerDemo.imports) (Some []) ["profile"] []
                    WalkerDemo.answers [("age", ZodNumber None false)]))
  = true.
Proof.
  apply (nested_object_hides_nothing (imports := WalkerDemo.imports)
           WalkerDemo.answers
           (mkAutoFormObjectProps
              (ZodOptional None (ZodObject None [("age", ZodNumber None false)]))
              [] ["profile"])
           (walk (imports := WalkerDemo.imports) (Some []) ["profile"] []
                 WalkerDemo.answers [("age", ZodNumber None false)])
           (fun _ => eq_refl) eq_refl).
Defined.

Lemma dependency_reaches_widget_witness :
  exists key data r,
    element (renderKey (imports := WalkerDemo.imports) None []
               WalkerDemo.nameRules WalkerDemo.answers "firstName" (ZodString None))
    = Some (FormField key data)
    /\ render (imports := WalkerDemo.imports) data None = Some r
    /\ rendered_disabled r = true.
Proof.
  do 3 eexists. split; [reflexivity|]. split; [reflexivity|].
  eapply (proj1 (dependency_reaches_widget (imports := WalkerDemo.imports) None []
                   WalkerDemo.nameRules WalkerDemo.answers "firstName"
                   (ZodString None) _ _ None _ eq_refl eq_refl)).
  reflexivity.
Defined.

Lemma override_options_make_enum_witness :
  exists key data,
    element (renderKey (imports := WalkerDemo.imports) None []
               WalkerDemo.nameRules WalkerDemo.answers "firstName" (ZodString None))
    = Some (FormField key data)
    /\ field_zodItem data = ZodEnum None ["Ann"; "Bob"]
    /\ field_zodBaseType data = "ZodString".
Proof.
  do 2 eexists. split; [reflexivity|].
  apply (override_options_make_enum (imports := WalkerDemo.imports) None []
           WalkerDemo.nameRules WalkerDemo.answers "firstName" (ZodString None)
           _ _ ["Ann"; "Bob"] eq_refl eq_refl).
Defined.

End WalkerExtras.
